(** * Hand tracking pipeline (handpipeline.js): region-of-interest tracking
      and the coordinate mapping between model space and frame space.

    The development embeds the class [HandPipeline] of the source.  The two
    sibling modules it requires, [./box] (as [bounding]) and [./util], are
    modelled from the specification.  The neural models and the tensor
    operations are collaborators: they are parameters of the embedding. *)

From Stdlib Require Import QArith Qminmax ZArith List Bool Lia Lqa Permutation.
Import ListNotations.

(** ** JavaScript numbers

    A JavaScript number is an IEEE-754 double.  The embedding keeps the
    values a double can take apart (finite, the two infinities, not-a-number)
    and computes on finite values with exact rationals: rounding, overflow
    and the sign of zero are outside the model (the single zero of [Q] is
    read as [+0]).  Comparisons, [Math.min] and [Math.max], and everything
    about [NaN] and the infinities are as on doubles; a sum, product or
    quotient of finite numbers is the double only where the double is
    exact. *)

Module JS.

Inductive number : Type :=
| Fin (q : Q)
| PosInfinity
| NegInfinity
| NaN.

Definition zero : number := Fin 0.
Definition one : number := Fin 1.
Definition two : number := Fin 2.

(** [infinity positive] is [Infinity] or [-Infinity]. *)
Definition infinity (positive : bool) : number :=
  if positive then PosInfinity else NegInfinity.

(** The infinity obtained when an infinity of sign [positive] is scaled by a
    finite value that compares to zero as [c]; scaling by zero has no value. *)
Definition scaled_infinity (positive : bool) (c : comparison) : number :=
  match c with
  | Eq => NaN
  | Gt => infinity positive
  | Lt => infinity (negb positive)
  end.

Definition neg (a : number) : number :=
  match a with
  | Fin q => Fin (- q)
  | PosInfinity => NegInfinity
  | NegInfinity => PosInfinity
  | NaN => NaN
  end.

Definition add (a b : number) : number :=
  match a, b with
  | NaN, _ | _, NaN => NaN
  | Fin p, Fin q => Fin (p + q)
  | PosInfinity, NegInfinity | NegInfinity, PosInfinity => NaN
  | PosInfinity, _ | _, PosInfinity => PosInfinity
  | NegInfinity, _ | _, NegInfinity => NegInfinity
  end.

Definition sub (a b : number) : number :=
  match a, b with
  | NaN, _ | _, NaN => NaN
  | Fin p, Fin q => Fin (p - q)
  | PosInfinity, PosInfinity | NegInfinity, NegInfinity => NaN
  | PosInfinity, _ | _, NegInfinity => PosInfinity
  | NegInfinity, _ | _, PosInfinity => NegInfinity
  end.

Definition mul (a b : number) : number :=
  match a, b with
  | NaN, _ | _, NaN => NaN
  | Fin p, Fin q => Fin (p * q)
  | PosInfinity, Fin q | Fin q, PosInfinity => scaled_infinity true (q ?= 0)
  | NegInfinity, Fin q | Fin q, NegInfinity => scaled_infinity false (q ?= 0)
  | PosInfinity, PosInfinity | NegInfinity, NegInfinity => PosInfinity
  | PosInfinity, NegInfinity | NegInfinity, PosInfinity => NegInfinity
  end.

(** Division never fails in JavaScript: a finite value over zero is an
    infinity of the sign of the numerator, and [0 / 0] is [NaN]. *)
Definition div (a b : number) : number :=
  match a, b with
  | NaN, _ | _, NaN => NaN
  | Fin p, Fin q =>
      if Qeq_bool q 0 then scaled_infinity true (p ?= 0) else Fin (p / q)
  | Fin _, (PosInfinity | NegInfinity) => Fin 0
  | PosInfinity, Fin q => infinity (Qle_bool 0 q)
  | NegInfinity, Fin q => infinity (negb (Qle_bool 0 q))
  | (PosInfinity | NegInfinity), (PosInfinity | NegInfinity) => NaN
  end.

(** [a < b]; every comparison with [NaN] is false. *)
Definition lt (a b : number) : bool :=
  match a, b with
  | NaN, _ | _, NaN => false
  | Fin p, Fin q => negb (Qle_bool q p)
  | NegInfinity, NegInfinity => false
  | NegInfinity, _ => true
  | _, NegInfinity => false
  | PosInfinity, _ => false
  | Fin _, PosInfinity => true
  end.

(** [a > b]. *)
Definition gt (a b : number) : bool := lt b a.

(** [Math.max] and [Math.min] of two arguments. *)
Definition max2 (a b : number) : number :=
  match a, b with
  | NaN, _ | _, NaN => NaN
  | Fin p, Fin q => Fin (Qmax p q)
  | PosInfinity, _ | _, PosInfinity => PosInfinity
  | NegInfinity, x | x, NegInfinity => x
  end.

Definition min2 (a b : number) : number :=
  match a, b with
  | NaN, _ | _, NaN => NaN
  | Fin p, Fin q => Fin (Qmin p q)
  | NegInfinity, _ | _, NegInfinity => NegInfinity
  | PosInfinity, x | x, PosInfinity => x
  end.

(** [Math.max(...xs)] and [Math.min(...xs)]: with no argument they are
    [-Infinity] and [Infinity]. *)
Definition max_of (xs : list number) : number := fold_left max2 xs NegInfinity.
Definition min_of (xs : list number) : number := fold_left min2 xs PosInfinity.

(** The values of the model that denote the same number: rationals are
    compared by value, not by representation. *)
Definition eqv (a b : number) : Prop :=
  match a, b with
  | Fin p, Fin q => p == q
  | PosInfinity, PosInfinity | NegInfinity, NegInfinity | NaN, NaN => True
  | _, _ => False
  end.

Definition eqvb (a b : number) : bool :=
  match a, b with
  | Fin p, Fin q => Qeq_bool p q
  | PosInfinity, PosInfinity | NegInfinity, NegInfinity | NaN, NaN => true
  | _, _ => false
  end.

Definition is_finite (a : number) : Prop :=
  match a with Fin _ => True | _ => False end.

End JS.

Import JS.

Declare Scope js_scope.
Delimit Scope js_scope with js.
Bind Scope js_scope with number.
Infix "+" := JS.add : js_scope.
Infix "-" := JS.sub : js_scope.
Infix "*" := JS.mul : js_scope.
Infix "/" := JS.div : js_scope.
Notation "- x" := (JS.neg x) : js_scope.
Infix "<?" := JS.lt : js_scope.
Infix ">?" := JS.gt (at level 70, no associativity) : js_scope.
Infix "=~" := JS.eqv (at level 70, no associativity) : js_scope.

(** ** Data model *)

Definition Point2D : Type := number * number.
Definition Point3D : Type := number * number * number.

(** A point read by index: [d[0]] and [d[1]] exist on both kinds of point. *)
Class Indexed (P : Type) : Type := {
  at0 : P -> number;
  at1 : P -> number
}.

#[export] Instance Indexed_Point2D : Indexed Point2D := {
  at0 := fun p => fst p;
  at1 := fun p => snd p
}.

#[export] Instance Indexed_Point3D : Indexed Point3D := {
  at0 := fun p => fst (fst p);
  at1 := fun p => snd (fst p)
}.

(** [coord[2]] of a three-component point. *)
Definition at2 (p : Point3D) : number := snd p.

(** [coord.slice(0, 2)]. *)
Definition slice2 (p : Point3D) : Point2D := (at0 p, at1 p).

(** [[...coord, 1]]. *)
Definition homogeneous (p : Point2D) : Point3D := (fst p, snd p, JS.one).

(** [{ startPoint, endPoint, palmLandmarks? }]; a box with no
    [palmLandmarks] property has [None] there. *)
Record Box : Type := mkBox {
  startPoint : Point2D;
  endPoint : Point2D;
  palmLandmarks : option (list Point2D)
}.

(** A 2x3 affine transform, as its two rows. *)
Definition RotationMatrix : Type := Point3D * Point3D.

Definition point2_eqv (p q : Point2D) : Prop :=
  (fst p =~ fst q)%js /\ (snd p =~ snd q)%js.

Definition point3_eqv (p q : Point3D) : Prop :=
  (at0 p =~ at0 q)%js /\ (at1 p =~ at1 q)%js /\ (at2 p =~ at2 q)%js.

Definition point2_eqvb (p q : Point2D) : bool :=
  JS.eqvb (fst p) (fst q) && JS.eqvb (snd p) (snd q).

(** The part of JavaScript's [Math] object that the helpers call.  Its
    functions return doubles; they are parameters of the embedding. *)
Record MathObject : Type := {
  Math_cos : number -> number;
  Math_sin : number -> number;
  Math_atan2 : number -> number -> number;
  Math_PI : number
}.

(** ** [./util]: rotation helpers *)

Module Util.

(** Modelled from the spec: [util.dot] is required from [./util], which is
    not among the sources; it is the dot product of two vectors of three
    numbers. *)
Definition dot (v1 v2 : Point3D) : number :=
  (at0 v1 * at0 v2 + at1 v1 * at1 v2 + at2 v1 * at2 v2)%js.

(** Modelled from the spec: [util.rotatePoint] is missing from the sources;
    it is the dot product of the homogeneous point with each row of the
    matrix, producing a 2D point. *)
Definition rotatePoint (homogeneousCoordinate : Point3D)
    (rotationMatrix : RotationMatrix) : Point2D :=
  (dot homogeneousCoordinate (fst rotationMatrix),
   dot homogeneousCoordinate (snd rotationMatrix)).

(** Modelled from the spec: [util.invertTransformMatrix] is missing from the
    sources; it is the algebraic inverse of the affine rotation: the
    transposed rotation part, and the translation it takes back. *)
Definition invertTransformMatrix (matrix : RotationMatrix) : RotationMatrix :=
  let '(m00, m01, m02) := fst matrix in
  let '(m10, m11, m12) := snd matrix in
  ((m00, m10, - (m00 * m02 + m10 * m12)),
   (m01, m11, - (m01 * m02 + m11 * m12)))%js.

Section WithMath.

Variable Math : MathObject.

(** Modelled from the spec: [util.buildRotationMatrix] is missing from the
    sources; it is the affine matrix rotating around [center] by
    [rotation]: a point goes to the centre plus its rotated offset from the
    centre. *)
Definition buildRotationMatrix (rotation : number) (center : Point2D)
    : RotationMatrix :=
  let cosA := Math_cos Math rotation in
  let sinA := Math_sin Math rotation in
  let '(cx, cy) := center in
  ((cosA, - sinA, cx - (cosA * cx - sinA * cy)),
   (sinA, cosA, cy - (sinA * cx + cosA * cy)))%js.

(** Modelled from the spec: [util.computeRotation] is missing from the
    sources; it is [PI/2 - atan2(-(B.y - A.y), B.x - A.x)]. *)
Definition computeRotation (point1 point2 : Point2D) : number :=
  (Math_PI Math / JS.two
   - Math_atan2 Math (- (snd point2 - snd point1)) (fst point2 - fst point1))%js.

End WithMath.

End Util.

(** ** [./box]: geometry of axis-aligned boxes *)

Module Bounding.

(** Modelled from the spec: [bounding.getBoxSize] is required from [./box],
    which is not among the sources; it is the component-wise difference of
    the corners. *)
Definition getBoxSize (box : Box) : Point2D :=
  (fst (endPoint box) - fst (startPoint box),
   snd (endPoint box) - snd (startPoint box))%js.

(** Modelled from the spec: [bounding.getBoxCenter] is missing from the
    sources; it is the component-wise midpoint of the corners. *)
Definition getBoxCenter (box : Box) : Point2D :=
  (fst (startPoint box) + (fst (endPoint box) - fst (startPoint box)) / JS.two,
   snd (startPoint box) + (snd (endPoint box) - snd (startPoint box)) / JS.two)%js.

(** Modelled from the spec: [bounding.shiftBox] is missing from the sources;
    it translates both corners by the vector scaled by the box's width and
    height. *)
Definition shiftBox (box : Box) (shiftFactor : Point2D) : Box :=
  let boxSize := getBoxSize box in
  let shiftVector :=
    (fst boxSize * fst shiftFactor, snd boxSize * snd shiftFactor)%js in
  {| startPoint := (fst (startPoint box) + fst shiftVector,
                    snd (startPoint box) + snd shiftVector)%js;
     endPoint := (fst (endPoint box) + fst shiftVector,
                  snd (endPoint box) + snd shiftVector)%js;
     palmLandmarks := palmLandmarks box |}.

(** Modelled from the spec: [bounding.squarifyBox] is missing from the
    sources; it expands the shorter dimension so that width and height are
    equal, centred on the centre of the box. *)
Definition squarifyBox (box : Box) : Box :=
  let centers := getBoxCenter box in
  let size := getBoxSize box in
  let maxEdge := JS.max2 (fst size) (snd size) in
  let halfSize := (maxEdge / JS.two)%js in
  {| startPoint := (fst centers - halfSize, snd centers - halfSize)%js;
     endPoint := (fst centers + halfSize, snd centers + halfSize)%js;
     palmLandmarks := palmLandmarks box |}.

(** Modelled from the spec: [bounding.enlargeBox] is missing from the
    sources; it scales the dimensions of the box by [factor] about its
    centre. *)
Definition enlargeBox (box : Box) (factor : number) : Box :=
  let center := getBoxCenter box in
  let size := getBoxSize box in
  let newHalfSize :=
    (factor * fst size / JS.two, factor * snd size / JS.two)%js in
  {| startPoint := (fst center - fst newHalfSize,
                    snd center - snd newHalfSize)%js;
     endPoint := (fst center + fst newHalfSize,
                  snd center + snd newHalfSize)%js;
     palmLandmarks := palmLandmarks box |}.

End Bounding.

(** ** The pipeline *)

Definition UPDATE_REGION_OF_INTEREST_IOU_THRESHOLD : number := Fin 0.8.
Definition PALM_BOX_SHIFT_VECTOR : Point2D := (Fin 0, Fin (-0.4)).
Definition PALM_BOX_ENLARGE_FACTOR : number := Fin 3.
Definition HAND_BOX_SHIFT_VECTOR : Point2D := (Fin 0, Fin (-0.1)).
Definition HAND_BOX_ENLARGE_FACTOR : number := Fin 1.65.
Definition PALM_LANDMARK_IDS : list nat := [0; 5; 9; 13; 17; 1; 2]%nat.
Definition PALM_LANDMARKS_INDEX_OF_PALM_BASE : nat := 0.
Definition PALM_LANDMARKS_INDEX_OF_MIDDLE_FINGER_BASE : nat := 2.

(** [this.maxHandsNumber]: the constructor assigns the literal 1 and nothing
    writes the field again. *)
Definition maxHandsNumber : nat := 1.

(** The fields of a [HandPipeline] object.  The two detectors it holds are
    collaborators (see [Collaborators]). *)
Record HandPipeline : Type := mkHandPipeline {
  regionsOfInterest : list Box;
  runsWithoutHandDetector : Z;
  maxContinuousChecks : Z;
  detectionConfidence : number;
  meshWidth : number;
  meshHeight : number
}.

Definition constructor (meshWidth meshHeight : number)
    (maxContinuousChecks : Z) (detectionConfidence : number) : HandPipeline :=
  {| regionsOfInterest := [];
     runsWithoutHandDetector := 0;
     maxContinuousChecks := maxContinuousChecks;
     detectionConfidence := detectionConfidence;
     meshWidth := meshWidth;
     meshHeight := meshHeight |}.

Definition set_regionsOfInterest (this : HandPipeline) (rois : list Box)
    : HandPipeline :=
  {| regionsOfInterest := rois;
     runsWithoutHandDetector := runsWithoutHandDetector this;
     maxContinuousChecks := maxContinuousChecks this;
     detectionConfidence := detectionConfidence this;
     meshWidth := meshWidth this;
     meshHeight := meshHeight this |}.

Definition set_runsWithoutHandDetector (this : HandPipeline) (runs : Z)
    : HandPipeline :=
  {| regionsOfInterest := regionsOfInterest this;
     runsWithoutHandDetector := runs;
     maxContinuousChecks := maxContinuousChecks this;
     detectionConfidence := detectionConfidence this;
     meshWidth := meshWidth this;
     meshHeight := meshHeight this |}.

(** [calculateLandmarksBoundingBox(landmarks)]: the landmarks are points of
    two or of three components. *)
Definition calculateLandmarksBoundingBox {P : Type} `{Indexed P}
    (landmarks : list P) : Box :=
  let xs := map at0 landmarks in
  let ys := map at1 landmarks in
  {| startPoint := (JS.min_of xs, JS.min_of ys);
     endPoint := (JS.max_of xs, JS.max_of ys);
     palmLandmarks := None |}.

(** [getBoxForPalmLandmarks(palmLandmarks, rotationMatrix)]. *)
Definition getBoxForPalmLandmarks (palmLandmarks : list Point2D)
    (rotationMatrix : RotationMatrix) : Box :=
  let rotatedPalmLandmarks :=
    map (fun coord => Util.rotatePoint (homogeneous coord) rotationMatrix)
        palmLandmarks in
  let boxAroundPalm := calculateLandmarksBoundingBox rotatedPalmLandmarks in
  Bounding.enlargeBox
    (Bounding.squarifyBox (Bounding.shiftBox boxAroundPalm PALM_BOX_SHIFT_VECTOR))
    PALM_BOX_ENLARGE_FACTOR.

(** The loop of [getBoxForHandLandmarks] over [PALM_LANDMARK_IDS]:
    [landmarks[id].slice(0, 2)] is pushed for each id; reading [slice] on a
    missing landmark ([undefined]) raises a TypeError, which is [None]. *)
Fixpoint collectPalmLandmarks (landmarks : list Point3D) (ids : list nat)
    : option (list Point2D) :=
  match ids with
  | [] => Some []
  | id :: rest =>
      match nth_error landmarks id with
      | None => None
      | Some landmark =>
          match collectPalmLandmarks landmarks rest with
          | None => None
          | Some pushed => Some (slice2 landmark :: pushed)
          end
      end
  end.

(** [getBoxForHandLandmarks(landmarks)]; [None] when it throws. *)
Definition getBoxForHandLandmarks (landmarks : list Point3D) : option Box :=
  let boundingBox := calculateLandmarksBoundingBox landmarks in
  let boxAroundHand :=
    Bounding.enlargeBox
      (Bounding.squarifyBox (Bounding.shiftBox boundingBox HAND_BOX_SHIFT_VECTOR))
      HAND_BOX_ENLARGE_FACTOR in
  match collectPalmLandmarks landmarks PALM_LANDMARK_IDS with
  | None => None
  | Some palmLandmarks =>
      Some {| startPoint := startPoint boxAroundHand;
              endPoint := endPoint boxAroundHand;
              palmLandmarks := Some palmLandmarks |}
  end.

(** The intersection over union that [updateRegionsOfInterest] computes
    between the incoming [box] and [previousBox] (the body of its inner
    [if]), operand by operand as the source writes it. *)
Definition iou (box previousBox : Box) : number :=
  let '(boxStartX, boxStartY) := startPoint box in
  let '(boxEndX, boxEndY) := endPoint box in
  let '(previousBoxStartX, previousBoxStartY) := startPoint previousBox in
  let '(previousBoxEndX, previousBoxEndY) := endPoint previousBox in
  let xStartMax := JS.max2 boxStartX previousBoxStartX in
  let yStartMax := JS.max2 boxStartY previousBoxStartY in
  let xEndMin := JS.min2 boxEndX previousBoxEndX in
  let yEndMin := JS.min2 boxEndY previousBoxEndY in
  let intersection := ((xEndMin - xStartMax) * (yEndMin - yStartMax))%js in
  let boxArea := ((boxEndX - boxStartX) * (boxEndY - boxStartY))%js in
  let previousBoxArea :=
    ((previousBoxEndX - previousBoxStartX) * (previousBoxEndY - boxStartY))%js in
  (intersection / (boxArea + previousBoxArea - intersection))%js.

(** [array[0] = x]: the first element is overwritten, and an empty array
    grows to length one. *)
Definition assignFirst {A : Type} (array : list A) (x : A) : list A :=
  match array with
  | [] => [x]
  | _ :: rest => x :: rest
  end.

(** The value of the local [iou] of [updateRegionsOfInterest] when the
    update is not forced: zero unless there is a previous box.  Every [Box]
    has a [startPoint], so the test [previousBox.startPoint != null] adds
    nothing to [previousBox != null]. *)
Definition previousIou (this : HandPipeline) (box : Box) : number :=
  match nth_error (regionsOfInterest this) 0 with
  | Some previousBox => iou box previousBox
  | None => JS.zero
  end.

(** [updateRegionsOfInterest(box, forceUpdate)].  In the last assignment
    [previousBox] is chosen only when [iou] exceeds the threshold, hence only
    when there is one. *)
Definition updateRegionsOfInterest (this : HandPipeline) (box : Box)
    (forceUpdate : bool) : HandPipeline :=
  if forceUpdate then set_regionsOfInterest this [box]
  else
    let previousBox := nth_error (regionsOfInterest this) 0 in
    let iou := previousIou this box in
    let kept :=
      match previousBox with
      | Some previous =>
          if (iou >? UPDATE_REGION_OF_INTEREST_IOU_THRESHOLD)%js
          then previous else box
      | None => box
      end in
    set_regionsOfInterest this (assignFirst (regionsOfInterest this) kept).

(** [shouldUpdateRegionsOfInterest()]. *)
Definition shouldUpdateRegionsOfInterest (this : HandPipeline) : bool :=
  let roisCount := length (regionsOfInterest this) in
  negb (Nat.eqb roisCount maxHandsNumber)
  || (maxContinuousChecks this <=? runsWithoutHandDetector this)%Z.

(** [transformRawCoords(rawCoords, box, angle, rotationMatrix)]. *)
Definition transformRawCoords (Math : MathObject) (this : HandPipeline)
    (rawCoords : list Point3D) (box : Box) (angle : number)
    (rotationMatrix : RotationMatrix) : list Point3D :=
  let boxSize := Bounding.getBoxSize box in
  let scaleFactor :=
    (fst boxSize / meshWidth this, snd boxSize / meshHeight this)%js in
  let coordsScaled :=
    map (fun coord : Point3D =>
           (fst scaleFactor * (at0 coord - meshWidth this / JS.two),
            snd scaleFactor * (at1 coord - meshHeight this / JS.two),
            at2 coord)%js)
        rawCoords in
  let coordsRotationMatrix :=
    Util.buildRotationMatrix Math angle (JS.zero, JS.zero) in
  let coordsRotated :=
    map (fun coord : Point3D =>
           let rotated := Util.rotatePoint coord coordsRotationMatrix in
           (fst rotated, snd rotated, at2 coord))
        coordsScaled in
  let inverseRotationMatrix := Util.invertTransformMatrix rotationMatrix in
  let boxCenter := homogeneous (Bounding.getBoxCenter box) in
  let originalBoxCenter :=
    (Util.dot boxCenter (fst inverseRotationMatrix),
     Util.dot boxCenter (snd inverseRotationMatrix)) in
  map (fun coord : Point3D =>
         (at0 coord + fst originalBoxCenter,
          at1 coord + snd originalBoxCenter,
          at2 coord)%js)
      coordsRotated.

(** *** One frame *)

(** What the pipeline calls outside itself, for frames of type [Image]: the
    two detectors given to the constructor and the tensor operations.
    [estimateHandBounds] answers [None] for [null]; [predict] gives the
    value read from the flag tensor and the rows of the keypoint tensor
    reshaped to three columns. *)
Record Collaborators (Image : Type) : Type := {
  estimateHandBounds : Image -> option Box;
  predict : Image -> number * list Point3D;
  rotateWithOffset : Image -> number -> number -> Point2D -> Image;
  cutBoxFromImageAndResize : Box -> Image -> Point2D -> Image;
  tensorDiv : Image -> number -> Image;
  shape1 : Image -> number;
  shape2 : Image -> number
}.

Arguments estimateHandBounds {Image}.
Arguments predict {Image}.
Arguments rotateWithOffset {Image}.
Arguments cutBoxFromImageAndResize {Image}.
Arguments tensorDiv {Image}.
Arguments shape1 {Image}.
Arguments shape2 {Image}.

Record Config : Type := { minConfidence : number }.

(** The object [estimateHand] resolves to. *)
Record Result : Type := {
  landmarks : list Point3D;
  confidence : number;
  topLeft : Point2D;
  bottomRight : Point2D
}.

(** How a call ends: it returns a value, or an exception leaves it (a
    TypeError on reading a property of [undefined]). *)
Inductive Completion (A : Type) : Type :=
| Returned (value : A)
| Thrown.

Arguments Returned {A}.
Arguments Thrown {A}.

Section EstimateHand.

Variable Math : MathObject.
Context {Image : Type}.
Variable tf : Collaborators Image.

(** The first statement group of [estimateHand]: the detection branch.
    [inl] is the early [return null]; [inr] carries on. *)
Definition detectOrCount (this : HandPipeline) (image : Image)
    (useFreshBox : bool) : HandPipeline + HandPipeline :=
  if useFreshBox then
    match estimateHandBounds tf image with
    | None => inl (set_regionsOfInterest this [])
    | Some boundingBoxPrediction =>
        let this := updateRegionsOfInterest this boundingBoxPrediction true in
        inr (set_runsWithoutHandDetector this 0)
    end
  else
    inr (set_runsWithoutHandDetector this (runsWithoutHandDetector this + 1)).

(** The tensor [estimateHand] gives to the mesh detector: the frame rotated
    by [angle] about the normalized palm centre, [box] cut out of it and
    resized to the mesh input size, and the pixel values divided by 255. *)
Definition handImageOf (this : HandPipeline) (image : Image) (angle : number)
    (palmCenter : Point2D) (box : Box) : Image :=
  let palmCenterNormalized :=
    (fst palmCenter / shape2 tf image, snd palmCenter / shape1 tf image)%js in
  let rotatedImage :=
    rotateWithOffset tf image angle JS.zero palmCenterNormalized in
  let croppedInput :=
    cutBoxFromImageAndResize tf box rotatedImage
      (meshWidth this, meshHeight this) in
  tensorDiv tf croppedInput (Fin 255).

(** [estimateHand(image, config)]: the completion of the call ([None] is
    [null]) and the pipeline object as the call leaves it. *)
Definition estimateHand (this : HandPipeline) (image : Image)
    (config : Config) : Completion (option Result) * HandPipeline :=
  let useFreshBox := shouldUpdateRegionsOfInterest this in
  match detectOrCount this image useFreshBox with
  | inl this => (Returned None, this)
  | inr this =>
      match nth_error (regionsOfInterest this) 0 with
      | None => (Thrown, this)
      | Some currentBox =>
          match palmLandmarks currentBox with
          | None => (Thrown, this)
          | Some currentPalmLandmarks =>
              match nth_error currentPalmLandmarks
                      PALM_LANDMARKS_INDEX_OF_PALM_BASE,
                    nth_error currentPalmLandmarks
                      PALM_LANDMARKS_INDEX_OF_MIDDLE_FINGER_BASE with
              | Some palmBase, Some middleFingerBase =>
                  let angle :=
                    Util.computeRotation Math palmBase middleFingerBase in
                  let palmCenter := Bounding.getBoxCenter currentBox in
                  let rotationMatrix :=
                    Util.buildRotationMatrix Math (- angle)%js palmCenter in
                  let box :=
                    if useFreshBox
                    then getBoxForPalmLandmarks currentPalmLandmarks
                           rotationMatrix
                    else currentBox in
                  let handImage :=
                    handImageOf this image angle palmCenter box in
                  let '(flagValue, rawCoords) := predict tf handImage in
                  if (flagValue <? minConfidence config)%js then
                    (Returned None, set_regionsOfInterest this [])
                  else
                    let coords :=
                      transformRawCoords Math this rawCoords box angle
                        rotationMatrix in
                    match getBoxForHandLandmarks coords with
                    | None => (Thrown, this)
                    | Some nextBoundingBox =>
                        (Returned
                           (Some {| landmarks := coords;
                                    confidence := flagValue;
                                    topLeft := startPoint nextBoundingBox;
                                    bottomRight := endPoint nextBoundingBox |}),
                         updateRegionsOfInterest this nextBoundingBox false)
                    end
              | _, _ => (Thrown, this)
              end
          end
      end
  end.

(** The hand image that [estimateHand] gives to the mesh detector on this
    frame: what the call has built when it reaches [meshDetector.predict],
    from the detection branch to the division by 255.  It is [None] when
    the call ends before that: the bounding box detector found no palm, or
    reading the anchors of the current box threw. *)
Definition frameHandImage (this : HandPipeline) (image : Image)
    : option Image :=
  let useFreshBox := shouldUpdateRegionsOfInterest this in
  match detectOrCount this image useFreshBox with
  | inl _ => None
  | inr this =>
      match nth_error (regionsOfInterest this) 0 with
      | None => None
      | Some currentBox =>
          match palmLandmarks currentBox with
          | None => None
          | Some currentPalmLandmarks =>
              match nth_error currentPalmLandmarks
                      PALM_LANDMARKS_INDEX_OF_PALM_BASE,
                    nth_error currentPalmLandmarks
                      PALM_LANDMARKS_INDEX_OF_MIDDLE_FINGER_BASE with
              | Some palmBase, Some middleFingerBase =>
                  let angle :=
                    Util.computeRotation Math palmBase middleFingerBase in
                  let palmCenter := Bounding.getBoxCenter currentBox in
                  let rotationMatrix :=
                    Util.buildRotationMatrix Math (- angle)%js palmCenter in
                  let box :=
                    if useFreshBox
                    then getBoxForPalmLandmarks currentPalmLandmarks
                           rotationMatrix
                    else currentBox in
                  Some (handImageOf this image angle palmCenter box)
              | _, _ => None
              end
          end
      end
  end.

End EstimateHand.

(** ** Notions used in the statements *)

(** The intersection over union as the specification words it: the
    computation of [iou] with the area of each box taken from that box's own
    corners, so [previousBoxStartY] where [iou] has [boxStartY]. *)
Definition iouOwnAreas (box previousBox : Box) : number :=
  let '(boxStartX, boxStartY) := startPoint box in
  let '(boxEndX, boxEndY) := endPoint box in
  let '(previousBoxStartX, previousBoxStartY) := startPoint previousBox in
  let '(previousBoxEndX, previousBoxEndY) := endPoint previousBox in
  let xStartMax := JS.max2 boxStartX previousBoxStartX in
  let yStartMax := JS.max2 boxStartY previousBoxStartY in
  let xEndMin := JS.min2 boxEndX previousBoxEndX in
  let yEndMin := JS.min2 boxEndY previousBoxEndY in
  let intersection := ((xEndMin - xStartMax) * (yEndMin - yStartMax))%js in
  let boxArea := ((boxEndX - boxStartX) * (boxEndY - boxStartY))%js in
  let previousBoxArea :=
    ((previousBoxEndX - previousBoxStartX)
     * (previousBoxEndY - previousBoxStartY))%js in
  (intersection / (boxArea + previousBoxArea - intersection))%js.

(** A box whose corners are the finite points [(sx, sy)] and [(ex, ey)]. *)
Definition finiteBox (sx sy ex ey : Q) (palm : option (list Point2D)) : Box :=
  {| startPoint := (Fin sx, Fin sy);
     endPoint := (Fin ex, Fin ey);
     palmLandmarks := palm |}.

(** Two boxes are disjoint when they are apart along the x axis or along
    the y axis. *)
Definition disjoint (a b : Box) : bool :=
  (fst (endPoint a) <? fst (startPoint b))%js
  || (fst (endPoint b) <? fst (startPoint a))%js
  || (snd (endPoint a) <? snd (startPoint b))%js
  || (snd (endPoint b) <? snd (startPoint a))%js.

(** The box has palm landmarks, and enough of them for the two anchors that
    [estimateHand] reads (indices 0 and 2). *)
Definition hasAnchors (box : Box) : Prop :=
  exists palm, palmLandmarks box = Some palm /\ (3 <= length palm)%nat.

(** The tracked regions are at most one box, and a tracked box has its
    [palmLandmarks]. *)
Definition roiInvariant (this : HandPipeline) : Prop :=
  (length (regionsOfInterest this) <= 1)%nat
  /\ forall box, In box (regionsOfInterest this) -> palmLandmarks box <> None.

(** What the pipeline expects of the bounding box detector: a detected palm
    box carries its palm landmarks. *)
Definition detectorContract {Image : Type} (tf : Collaborators Image) : Prop :=
  forall image box,
    estimateHandBounds tf image = Some box -> palmLandmarks box <> None.

(** The pipeline objects that a sequence of [estimateHand] calls can leave
    behind, from a freshly constructed one. *)
Inductive reachable (Math : MathObject) {Image : Type}
    (tf : Collaborators Image) : HandPipeline -> Prop :=
| reachable_constructor :
    forall meshWidth meshHeight maxContinuousChecks detectionConfidence,
      reachable Math tf
        (constructor meshWidth meshHeight maxContinuousChecks
           detectionConfidence)
| reachable_estimateHand :
    forall this image config,
      reachable Math tf this ->
      reachable Math tf (snd (estimateHand Math tf this image config)).

(** A [Math] object known at zero only: cosine and sine have their values
    there and are [NaN] elsewhere, and [atan2] always answers a quarter turn,
    so that every rotation computed with it is zero. *)
Definition mathAtZero : MathObject :=
  {| Math_cos := fun a => if JS.eqvb a JS.zero then JS.one else NaN;
     Math_sin := fun a => if JS.eqvb a JS.zero then JS.zero else NaN;
     Math_atan2 := fun _ _ => (Fin 3.141592653589793 / JS.two)%js;
     Math_PI := Fin 3.141592653589793 |}.

(** *** Sample values *)

(** An incoming box and a tracked box that starts three units lower. *)
Definition incomingBox : Box := finiteBox 0 0 20 20 None.
Definition trackedBox : Box := finiteBox 0 3 20 20 None.

(** Two unit boxes side by side, one unit apart along the x axis. *)
Definition leftBox : Box := finiteBox 0 0 1 1 None.
Definition rightBox : Box := finiteBox 2 0 3 1 None.

(** Two boxes apart along both axes. *)
Definition nearBox : Box := finiteBox 0 0 10 10 None.
Definition farBox : Box := finiteBox 20 20 25 22 None.

(** A pipeline object that tracks [box], [runs] frames after the last full
    detection. *)
Definition tracking (box : Box) (runs : Z) : HandPipeline :=
  {| regionsOfInterest := [box];
     runsWithoutHandDetector := runs;
     maxContinuousChecks := 10;
     detectionConfidence := Fin 0.8;
     meshWidth := Fin 256;
     meshHeight := Fin 256 |}.

(** Twenty-one landmarks on a line from (10,10) to (50,90), the k-th at
    depth k. *)
Definition sampleLandmarks : list Point3D :=
  map (fun k : nat =>
         let t := inject_Z (Z.of_nat k) in
         (Fin (10 + 2 * t), Fin (10 + 4 * t), Fin t))
      (seq 0 21).

(** A palm box as the bounding box detector reports one, with seven palm
    landmarks. *)
Definition samplePalm : Box :=
  {| startPoint := (Fin 100, Fin 120);
     endPoint := (Fin 180, Fin 200);
     palmLandmarks :=
       Some [(Fin 140, Fin 200); (Fin 110, Fin 150); (Fin 140, Fin 120);
             (Fin 160, Fin 150); (Fin 175, Fin 160); (Fin 105, Fin 190);
             (Fin 102, Fin 170)] |}.

(** Collaborators over frames that carry no data: the detector always finds
    [samplePalm], and the mesh detector always answers [flagValue] with
    [sampleLandmarks]. *)
Definition sampleCollaborators (flagValue : number) : Collaborators unit :=
  {| estimateHandBounds := fun _ => Some samplePalm;
     predict := fun _ => (flagValue, sampleLandmarks);
     rotateWithOffset := fun image _ _ _ => image;
     cutBoxFromImageAndResize := fun _ image _ => image;
     tensorDiv := fun image _ => image;
     shape1 := fun _ => Fin 480;
     shape2 := fun _ => Fin 640 |}.

Definition samplePipeline : HandPipeline :=
  constructor (Fin 256) (Fin 256) 10 (Fin 0.8).

Definition sampleConfig : Config := {| minConfidence := Fin 0.5 |}.

(** The point that [nth] answers out of range. *)
Definition origin3 : Point3D := (Fin 0, Fin 0, Fin 0).

(** *** Notions for the whole-frame properties *)

(** A point whose first two coordinates are finite. *)
Definition finitePoint {P : Type} `{Indexed P} (p : P) : Prop :=
  JS.is_finite (at0 p) /\ JS.is_finite (at1 p).

(** The point [p] lies in [box], corners included; the coordinates are
    finite. *)
Definition insideBox {P : Type} `{Indexed P} (p : P) (box : Box) : Prop :=
  exists x y sx sy ex ey,
    at0 p = Fin x /\ at1 p = Fin y
    /\ startPoint box = (Fin sx, Fin sy) /\ endPoint box = (Fin ex, Fin ey)
    /\ sx <= x /\ x <= ex /\ sy <= y /\ y <= ey.

(** The collaborators [tf] with another bounding box detector. *)
Definition withBoundingBoxDetector {Image : Type} (tf : Collaborators Image)
    (detector : Image -> option Box) : Collaborators Image :=
  {| estimateHandBounds := detector;
     predict := predict tf;
     rotateWithOffset := rotateWithOffset tf;
     cutBoxFromImageAndResize := cutBoxFromImageAndResize tf;
     tensorDiv := tensorDiv tf;
     shape1 := shape1 tf;
     shape2 := shape2 tf |}.

(** The collaborators [tf] with another mesh detector. *)
Definition withMeshDetector {Image : Type} (tf : Collaborators Image)
    (mesh : Image -> number * list Point3D) : Collaborators Image :=
  {| estimateHandBounds := estimateHandBounds tf;
     predict := mesh;
     rotateWithOffset := rotateWithOffset tf;
     cutBoxFromImageAndResize := cutBoxFromImageAndResize tf;
     tensorDiv := tensorDiv tf;
     shape1 := shape1 tf;
     shape2 := shape2 tf |}.

(** Every tracked box has the anchors that [estimateHand] reads. *)
Definition anchorsInvariant (this : HandPipeline) : Prop :=
  forall box, In box (regionsOfInterest this) -> hasAnchors box.

(** What [estimateHand] reads without a check: a detected palm box has its
    anchor landmarks, and the keypoint tensor has a row for every palm
    landmark id (the largest is 17). *)
Definition collaboratorsContract {Image : Type} (tf : Collaborators Image)
    : Prop :=
  (forall image box, estimateHandBounds tf image = Some box -> hasAnchors box)
  /\ (forall image, (18 <= length (snd (predict tf image)))%nat).

(** The landmark [p] with its depth replaced by [depth p]. *)
Definition withDepth (depth : Point3D -> number) (p : Point3D) : Point3D :=
  (at0 p, at1 p, depth p).

(** Collaborators over frames that remember the box cut out of them
    ([None] is a whole frame).  The detector always finds [samplePalm]; the
    mesh detector answers [left] for a hand image cut from a box that starts
    left of x = 50, and is confident of 21 keypoints otherwise. *)
Definition cropCollaborators (left : number * list Point3D)
    : Collaborators (option Box) :=
  {| estimateHandBounds := fun _ => Some samplePalm;
     predict := fun handImage =>
       match handImage with
       | Some crop =>
           if (fst (startPoint crop) <? Fin 50)%js then left
           else (Fin 0.9, sampleLandmarks)
       | None => (Fin 0.9, sampleLandmarks)
       end;
     rotateWithOffset := fun image _ _ _ => image;
     cutBoxFromImageAndResize := fun box _ _ => Some box;
     tensorDiv := fun image _ => image;
     shape1 := fun _ => Fin 480;
     shape2 := fun _ => Fin 640 |}.

(** Two boxes with the same corners, as numbers. *)
Definition sameCorners (a b : Box) : Prop :=
  point2_eqv (startPoint a) (startPoint b)
  /\ point2_eqv (endPoint a) (endPoint b).

(** ** Arithmetic on finite numbers *)

Lemma eqv_refl (a : number) : (a =~ a)%js.
Proof. destruct a; simpl; trivial. reflexivity. Qed.

Lemma eqv_sym (a b : number) : (a =~ b)%js -> (b =~ a)%js.
Proof. destruct a, b; simpl; trivial. intro E. symmetry. exact E. Qed.

Lemma eqv_trans (a b c : number) : (a =~ b)%js -> (b =~ c)%js -> (a =~ c)%js.
Proof.
  destruct a, b, c; simpl; trivial; try contradiction.
  intros E1 E2. rewrite E1. exact E2.
Qed.

Lemma eqvb_eqv (a b : number) : JS.eqvb a b = true <-> (a =~ b)%js.
Proof.
  destruct a, b; simpl; try tauto; try (split; [discriminate | contradiction]).
  apply Qeq_bool_iff.
Qed.

Lemma eqv_finite (a : number) (q : Q) :
  (a =~ Fin q)%js -> exists p, a = Fin p /\ p == q.
Proof.
  destruct a as [p | | |]; simpl; try contradiction.
  intro E. exists p. split; [reflexivity | exact E].
Qed.

Lemma div_finite (p q : Q) : ~ q == 0 -> (Fin p / Fin q)%js = Fin (p / q).
Proof.
  intro Hq. simpl. destruct (Qeq_bool q 0) eqn:E; [|reflexivity].
  apply Qeq_bool_iff in E. contradiction.
Qed.

Lemma div_two (p : Q) : (Fin p / JS.two)%js = Fin (p / 2).
Proof. apply div_finite. discriminate. Qed.

Lemma gt_finite (p q : Q) : (Fin p >? Fin q)%js = true <-> q < p.
Proof.
  unfold JS.gt. simpl. rewrite negb_true_iff.
  split.
  - intro E. apply Qnot_le_lt. intro L. apply Qle_bool_iff in L. congruence.
  - intro L. destruct (Qle_bool p q) eqn:E; [|reflexivity].
    apply Qle_bool_iff in E. apply Qlt_not_le in L. contradiction.
Qed.

Lemma Qmax_same (x : Q) : Qmax x x = x.
Proof. unfold Qmax, GenericMinMax.gmax. destruct (x ?= x); reflexivity. Qed.

Lemma Qmin_same (x : Q) : Qmin x x = x.
Proof. unfold Qmin, GenericMinMax.gmin. destruct (x ?= x); reflexivity. Qed.

(** Case analysis on the scrutinee of a [match] in the goal. *)
Ltac break_match :=
  match goal with
  | |- context [match ?x with _ => _ end] => destruct x eqn:?
  end.

(** ** The refresh policy *)

(** C3: [shouldUpdateRegionsOfInterest] answers true exactly when the number
    of tracked regions differs from [maxHandsNumber] (which is 1) or the
    counter of frames since the last full detection has reached
    [maxContinuousChecks]. *)
Theorem shouldUpdateRegionsOfInterest_iff (this : HandPipeline) :
  shouldUpdateRegionsOfInterest this = true
  <-> (length (regionsOfInterest this) <> maxHandsNumber
       \/ (maxContinuousChecks this <= runsWithoutHandDetector this)%Z).
Proof.
  unfold shouldUpdateRegionsOfInterest.
  rewrite orb_true_iff, negb_true_iff, Nat.eqb_neq, Z.leb_le.
  reflexivity.
Qed.

Lemma maxHandsNumber_is_one : maxHandsNumber = 1%nat.
Proof. reflexivity. Qed.

Lemma shouldUpdate_no_region (this : HandPipeline) :
  regionsOfInterest this = [] -> shouldUpdateRegionsOfInterest this = true.
Proof.
  intro E. unfold shouldUpdateRegionsOfInterest. rewrite E. reflexivity.
Qed.

(** ** Updating the tracked region *)

Lemma previousIou_no_region (this : HandPipeline) (box : Box) :
  regionsOfInterest this = [] -> previousIou this box = JS.zero.
Proof. unfold previousIou. intros ->. reflexivity. Qed.

Lemma previousIou_region (this : HandPipeline) (box previous : Box) rest :
  regionsOfInterest this = previous :: rest ->
  previousIou this box = iou box previous.
Proof. unfold previousIou. intros ->. reflexivity. Qed.

Lemma updateRegionsOfInterest_fields (this : HandPipeline) (box : Box) force :
  let this' := updateRegionsOfInterest this box force in
  runsWithoutHandDetector this' = runsWithoutHandDetector this
  /\ maxContinuousChecks this' = maxContinuousChecks this
  /\ detectionConfidence this' = detectionConfidence this
  /\ meshWidth this' = meshWidth this
  /\ meshHeight this' = meshHeight this.
Proof.
  unfold updateRegionsOfInterest. destruct force; simpl; repeat split.
Qed.

(** C4: without force, [updateRegionsOfInterest] keeps the tracked regions
    as they are when the computed intersection over union exceeds 0.8 and
    otherwise puts the new box in the place of the tracked one; with no
    tracked region the intersection over union is zero and the new box is
    installed. *)
Theorem updateRegionsOfInterest_not_forced (this : HandPipeline) (box : Box) :
  (forall previous rest,
      regionsOfInterest this = previous :: rest ->
      previousIou this box = iou box previous
      /\ ((iou box previous >? Fin 0.8)%js = true ->
          updateRegionsOfInterest this box false = this)
      /\ ((iou box previous >? Fin 0.8)%js = false ->
          regionsOfInterest (updateRegionsOfInterest this box false)
          = box :: rest))
  /\ (regionsOfInterest this = [] ->
      previousIou this box = Fin 0
      /\ regionsOfInterest (updateRegionsOfInterest this box false) = [box]).
Proof.
  split.
  - intros previous rest E. split; [exact (previousIou_region _ _ _ _ E)|].
    unfold updateRegionsOfInterest, previousIou.
    change UPDATE_REGION_OF_INTEREST_IOU_THRESHOLD with (Fin 0.8).
    destruct this as [rois runs checks conf w h]. simpl in *. subst rois.
    simpl. split; intros ->; reflexivity.
  - intro E. split; [exact (previousIou_no_region _ _ E)|].
    unfold updateRegionsOfInterest. rewrite E. reflexivity.
Qed.

(** C5 (as the code has it): a forced [updateRegionsOfInterest] makes the
    tracked regions exactly the new box, whatever was tracked, and leaves
    the counter as it was; the counter is set to zero by [estimateHand],
    right after its forced update, on every frame where a full detection is
    due and the detector finds a palm. *)
Theorem updateRegionsOfInterest_forced (this : HandPipeline) (box : Box) :
  regionsOfInterest (updateRegionsOfInterest this box true) = [box]
  /\ runsWithoutHandDetector (updateRegionsOfInterest this box true)
     = runsWithoutHandDetector this
  /\ forall (Math : MathObject) (Image : Type) (tf : Collaborators Image)
       (image : Image) (config : Config),
       shouldUpdateRegionsOfInterest this = true ->
       estimateHandBounds tf image = Some box ->
       detectOrCount tf this image true
       = inr (set_runsWithoutHandDetector
                (updateRegionsOfInterest this box true) 0)
       /\ runsWithoutHandDetector (snd (estimateHand Math tf this image config))
          = 0%Z.
Proof.
  split; [reflexivity|]. split; [reflexivity|].
  intros Math Image tf image config Hfresh Hbounds.
  split.
  - unfold detectOrCount. rewrite Hbounds. reflexivity.
  - unfold estimateHand. rewrite Hfresh. unfold detectOrCount.
    rewrite Hbounds. cbn [updateRegionsOfInterest set_regionsOfInterest
      set_runsWithoutHandDetector regionsOfInterest nth_error].
    repeat (first [reflexivity | break_match]).
Qed.

(** ** Mapping raw keypoints to the frame *)

(** C8: the third component of every point that [transformRawCoords]
    returns is the third component of the raw keypoint at the same
    position. *)
Theorem transformRawCoords_depth (Math : MathObject) (this : HandPipeline)
    (rawCoords : list Point3D) (box : Box) (angle : number)
    (rotationMatrix : RotationMatrix) :
  map at2 (transformRawCoords Math this rawCoords box angle rotationMatrix)
  = map at2 rawCoords.
Proof.
  unfold transformRawCoords. rewrite !map_map. apply map_ext.
  intros [[x y] z]. reflexivity.
Qed.

Lemma transformRawCoords_length (Math : MathObject) (this : HandPipeline)
    (rawCoords : list Point3D) (box : Box) (angle : number)
    (rotationMatrix : RotationMatrix) :
  length (transformRawCoords Math this rawCoords box angle rotationMatrix)
  = length rawCoords.
Proof. unfold transformRawCoords. rewrite !length_map. reflexivity. Qed.

(** ** The intersection over union of the update *)

(** On finite boxes [iou] is the quotient the source writes: the product of
    the clipped extents over the sum of the two area terms less that
    product, the second area term being
    [(previousBoxEndX - previousBoxStartX) * (previousBoxEndY - boxStartY)]. *)
Lemma iou_finite (sx sy ex ey psx psy pex pey : Q) palm ppalm :
  iou (finiteBox sx sy ex ey palm) (finiteBox psx psy pex pey ppalm)
  = (Fin ((Qmin ex pex - Qmax sx psx) * (Qmin ey pey - Qmax sy psy))
     / Fin ((ex - sx) * (ey - sy) + (pex - psx) * (pey - sy)
            - (Qmin ex pex - Qmax sx psx) * (Qmin ey pey - Qmax sy psy)))%js.
Proof. reflexivity. Qed.

(** C1: on the incoming box (0,0)-(20,20) and the tracked box (0,3)-(20,20)
    the update computes 340/460 where the intersection over union with each
    area taken from its own box is 340/400: the area term of the tracked
    box is computed from the start y of the incoming box.  The first does
    not exceed 0.8, the second does, so the update replaces a region that
    the consistent computation would retain. *)
Theorem iou_previous_area_uses_incoming_startY :
  (iou incomingBox trackedBox =~ Fin (340 # 460))%js
  /\ (iouOwnAreas incomingBox trackedBox =~ Fin (340 # 400))%js
  /\ (iou incomingBox trackedBox >? Fin 0.8)%js = false
  /\ (iouOwnAreas incomingBox trackedBox >? Fin 0.8)%js = true
  /\ regionsOfInterest
       (updateRegionsOfInterest (tracking trackedBox 0) incomingBox false)
     = [incomingBox].
Proof. repeat split; vm_compute; reflexivity. Qed.

(** C2: on two unit boxes one unit apart along the x axis the update
    computes -1/3, not zero; and on (0,0)-(10,10) against the tracked box
    (20,20)-(25,22), apart along both axes, it computes 100/110, which
    exceeds 0.8, so the tracked box is retained.  The extents of the
    intersection are not clipped at zero. *)
Theorem iou_disjoint_not_zero :
  disjoint leftBox rightBox = true
  /\ (iou leftBox rightBox =~ Fin (-1 # 3))%js
  /\ ~ (iou leftBox rightBox =~ Fin 0)%js
  /\ disjoint nearBox farBox = true
  /\ (iou nearBox farBox =~ Fin (100 # 110))%js
  /\ updateRegionsOfInterest (tracking farBox 0) nearBox false
     = tracking farBox 0.
Proof.
  repeat split; try (vm_compute; reflexivity).
  vm_compute. discriminate.
Qed.

(** ** One frame, and sequences of frames *)

Lemma collectPalmLandmarks_length (landmarks : list Point3D) (ids : list nat)
    (pushed : list Point2D) :
  collectPalmLandmarks landmarks ids = Some pushed ->
  length pushed = length ids.
Proof.
  revert pushed. induction ids as [|id rest IH]; simpl; intros pushed E.
  - injection E as <-. reflexivity.
  - destruct (nth_error landmarks id); [|discriminate].
    destruct (collectPalmLandmarks landmarks rest) as [tail|]; [|discriminate].
    injection E as <-. simpl. f_equal. apply IH. reflexivity.
Qed.

(** A box from [getBoxForHandLandmarks] carries seven palm landmarks. *)
Lemma getBoxForHandLandmarks_palmLandmarks (landmarks : list Point3D)
    (box : Box) :
  getBoxForHandLandmarks landmarks = Some box ->
  exists palm, palmLandmarks box = Some palm /\ length palm = 7%nat.
Proof.
  unfold getBoxForHandLandmarks.
  destruct (collectPalmLandmarks landmarks PALM_LANDMARK_IDS) as [palm|] eqn:E;
    [|discriminate].
  intro H. injection H as <-. exists palm. split; [reflexivity|].
  apply collectPalmLandmarks_length in E. exact E.
Qed.

Lemma roiInvariant_counter (this : HandPipeline) (runs : Z) :
  roiInvariant this -> roiInvariant (set_runsWithoutHandDetector this runs).
Proof. intro H. exact H. Qed.

Lemma roiInvariant_cleared (this : HandPipeline) :
  roiInvariant (set_regionsOfInterest this []).
Proof.
  split; simpl.
  - lia.
  - intros box [].
Qed.

Lemma roiInvariant_forced (this : HandPipeline) (box : Box) :
  palmLandmarks box <> None ->
  roiInvariant (updateRegionsOfInterest this box true).
Proof.
  intro Hbox. split; simpl.
  - lia.
  - intros b [<- | []]. exact Hbox.
Qed.

Lemma roiInvariant_not_forced (this : HandPipeline) (box : Box) :
  roiInvariant this ->
  palmLandmarks box <> None ->
  roiInvariant (updateRegionsOfInterest this box false).
Proof.
  intros [Hlen Hpalm] Hbox.
  unfold roiInvariant, updateRegionsOfInterest, previousIou.
  destruct (regionsOfInterest this) as [|previous [|other rest]] eqn:E.
  - cbn. split; [lia|]. intros b [<- | []]. exact Hbox.
  - cbn [nth_error assignFirst set_regionsOfInterest regionsOfInterest].
    destruct (iou box previous >? UPDATE_REGION_OF_INTEREST_IOU_THRESHOLD)%js;
      (split; [simpl; lia|]); intros b [<- | []].
    + apply Hpalm. left. reflexivity.
    + exact Hbox.
  - simpl in Hlen. lia.
Qed.

(** Whatever the frame, [estimateHand] keeps the invariant of the tracked
    regions, provided the detector's boxes carry their palm landmarks. *)
Lemma estimateHand_roiInvariant (Math : MathObject) {Image : Type}
    (tf : Collaborators Image) (this : HandPipeline) (image : Image)
    (config : Config) :
  detectorContract tf ->
  roiInvariant this ->
  roiInvariant (snd (estimateHand Math tf this image config)).
Proof.
  intros Hdet Hinv. unfold estimateHand.
  set (useFreshBox := shouldUpdateRegionsOfInterest this).
  assert (Hstage : match detectOrCount tf this image useFreshBox with
                   | inl this' | inr this' => roiInvariant this'
                   end).
  { unfold detectOrCount. destruct useFreshBox.
    - destruct (estimateHandBounds tf image) as [detected|] eqn:E.
      + apply roiInvariant_counter, roiInvariant_forced. exact (Hdet _ _ E).
      + apply roiInvariant_cleared.
    - apply roiInvariant_counter. exact Hinv. }
  destruct (detectOrCount tf this image useFreshBox) as [early | this1];
    [exact Hstage|].
  destruct (nth_error (regionsOfInterest this1) 0); [|exact Hstage].
  destruct (palmLandmarks b); [|exact Hstage].
  destruct (nth_error l PALM_LANDMARKS_INDEX_OF_PALM_BASE); [|exact Hstage].
  destruct (nth_error l PALM_LANDMARKS_INDEX_OF_MIDDLE_FINGER_BASE);
    [|exact Hstage].
  match goal with |- context [predict tf ?i] => destruct (predict tf i) end.
  match goal with |- context [if ?c then _ else _] => destruct c end;
    [apply roiInvariant_cleared|].
  match goal with
  | |- context [getBoxForHandLandmarks ?c] =>
      destruct (getBoxForHandLandmarks c) as [next|] eqn:Enext
  end; [|exact Hstage].
  simpl. apply roiInvariant_not_forced; [exact Hstage|].
  destruct (getBoxForHandLandmarks_palmLandmarks _ _ Enext) as [palm [-> _]].
  discriminate.
Qed.

(** C10: in every pipeline object that a sequence of [estimateHand] calls
    leaves behind, [regionsOfInterest] holds at most one box, and a box it
    holds has its [palmLandmarks]; the boxes of the bounding box detector
    are taken to carry theirs. *)
Theorem reachable_roiInvariant (Math : MathObject) {Image : Type}
    (tf : Collaborators Image) (this : HandPipeline) :
  detectorContract tf ->
  reachable Math tf this ->
  (length (regionsOfInterest this) <= 1)%nat
  /\ forall box, In box (regionsOfInterest this) -> palmLandmarks box <> None.
Proof.
  intros Hdet Hreach. change (roiInvariant this).
  induction Hreach as [w h checks conf | this image config _ IH].
  - split; simpl; [lia | intros box []].
  - apply estimateHand_roiInvariant; assumption.
Qed.

Lemma anchors_present (palm : list Point2D) :
  (3 <= length palm)%nat ->
  exists palmBase middleFingerBase,
    nth_error palm PALM_LANDMARKS_INDEX_OF_PALM_BASE = Some palmBase
    /\ nth_error palm PALM_LANDMARKS_INDEX_OF_MIDDLE_FINGER_BASE
       = Some middleFingerBase.
Proof.
  destruct palm as [|p0 [|p1 [|p2 rest]]]; simpl; try lia.
  intros _. exists p0, p2. split; reflexivity.
Qed.

(** The three ways through the detection branch of [estimateHand]. *)
Lemma detectOrCount_cases {Image : Type} (tf : Collaborators Image)
    (this : HandPipeline) (image : Image) :
  (shouldUpdateRegionsOfInterest this = true
   /\ estimateHandBounds tf image = None
   /\ detectOrCount tf this image (shouldUpdateRegionsOfInterest this)
      = inl (set_regionsOfInterest this []))
  \/ (exists detected,
        shouldUpdateRegionsOfInterest this = true
        /\ estimateHandBounds tf image = Some detected
        /\ detectOrCount tf this image (shouldUpdateRegionsOfInterest this)
           = inr (set_runsWithoutHandDetector
                    (updateRegionsOfInterest this detected true) 0))
  \/ (exists currentBox,
        shouldUpdateRegionsOfInterest this = false
        /\ regionsOfInterest this = [currentBox]
        /\ detectOrCount tf this image (shouldUpdateRegionsOfInterest this)
           = inr (set_runsWithoutHandDetector this
                    (runsWithoutHandDetector this + 1))).
Proof.
  destruct (shouldUpdateRegionsOfInterest this) eqn:Efresh.
  - unfold detectOrCount.
    destruct (estimateHandBounds tf image) as [detected|] eqn:Ebounds.
    + right. left. exists detected. repeat split.
    + left. repeat split.
  - right. right. pose proof Efresh as Ecount.
    unfold shouldUpdateRegionsOfInterest in Ecount.
    apply orb_false_iff in Ecount. destruct Ecount as [Ecount _].
    apply negb_false_iff, Nat.eqb_eq in Ecount.
    destruct (regionsOfInterest this) as [|currentBox [|other rest]];
      try discriminate.
    exists currentBox. repeat split.
Qed.

(** What [estimateHand] does once it has built the hand image of the
    frame: it reads the answer of the mesh detector for that image, and
    ends in [null] with the regions emptied, in an exception, or in a result
    with an unforced update.  At that point one region is tracked. *)
Lemma estimateHand_from_handImage (Math : MathObject) {Image : Type}
    (tf : Collaborators Image) (this : HandPipeline) (image : Image)
    (config : Config) (handImage : Image) :
  frameHandImage Math tf this image = Some handImage ->
  exists this1 current box angle rotationMatrix,
    regionsOfInterest this1 = [current]
    /\ estimateHand Math tf this image config
       = (let '(flagValue, rawCoords) := predict tf handImage in
          if (flagValue <? minConfidence config)%js
          then (Returned None, set_regionsOfInterest this1 [])
          else
            let coords :=
              transformRawCoords Math this1 rawCoords box angle
                rotationMatrix in
            match getBoxForHandLandmarks coords with
            | None => (Thrown, this1)
            | Some nextBoundingBox =>
                (Returned
                   (Some {| landmarks := coords;
                            confidence := flagValue;
                            topLeft := startPoint nextBoundingBox;
                            bottomRight := endPoint nextBoundingBox |}),
                 updateRegionsOfInterest this1 nextBoundingBox false)
            end).
Proof.
  intro Himage.
  assert (Hgo : forall this1 current,
             detectOrCount tf this image (shouldUpdateRegionsOfInterest this)
             = inr this1 ->
             regionsOfInterest this1 = [current] ->
             exists box angle rotationMatrix,
               estimateHand Math tf this image config
               = (let '(flagValue, rawCoords) := predict tf handImage in
                  if (flagValue <? minConfidence config)%js
                  then (Returned None, set_regionsOfInterest this1 [])
                  else
                    let coords :=
                      transformRawCoords Math this1 rawCoords box angle
                        rotationMatrix in
                    match getBoxForHandLandmarks coords with
                    | None => (Thrown, this1)
                    | Some nextBoundingBox =>
                        (Returned
                           (Some {| landmarks := coords;
                                    confidence := flagValue;
                                    topLeft := startPoint nextBoundingBox;
                                    bottomRight := endPoint nextBoundingBox |}),
                         updateRegionsOfInterest this1 nextBoundingBox false)
                    end)).
  { intros this1 current Estage Erois.
    unfold frameHandImage in Himage. unfold estimateHand.
    rewrite Estage in Himage |- *. rewrite Erois in Himage |- *.
    cbn [nth_error] in Himage |- *.
    destruct (palmLandmarks current) as [palm|]; [|discriminate].
    destruct (nth_error palm PALM_LANDMARKS_INDEX_OF_PALM_BASE);
      [|discriminate].
    destruct (nth_error palm PALM_LANDMARKS_INDEX_OF_MIDDLE_FINGER_BASE);
      [|discriminate].
    injection Himage as <-. do 3 eexists. reflexivity. }
  destruct (detectOrCount_cases tf this image)
    as [[Efresh [Ebounds Estage]]
       | [[detected [Efresh [Ebounds Estage]]]
         | [currentBox [Efresh [Erois Estage]]]]].
  - unfold frameHandImage in Himage. rewrite Estage in Himage. discriminate.
  - destruct (Hgo _ detected Estage eq_refl) as [box [angle [rot E]]].
    do 5 eexists. split; [|exact E]. reflexivity.
  - destruct (Hgo _ currentBox Estage Erois) as [box [angle [rot E]]].
    do 5 eexists. split; [|exact E]. exact Erois.
Qed.

(** C6: on a frame where the bounding box detector is consulted and finds
    no palm, or where the mesh detector's confidence for the hand image of
    the frame is below [config.minConfidence], [estimateHand] returns
    [null] and leaves no tracked region, so [shouldUpdateRegionsOfInterest]
    answers true on the next frame. *)
Theorem estimateHand_resets (Math : MathObject) {Image : Type}
    (tf : Collaborators Image) (this : HandPipeline) (image : Image)
    (config : Config) :
  (shouldUpdateRegionsOfInterest this = true
   /\ estimateHandBounds tf image = None)
  \/ (exists handImage,
         frameHandImage Math tf this image = Some handImage
         /\ (fst (predict tf handImage) <? minConfidence config)%js = true) ->
  fst (estimateHand Math tf this image config) = Returned None
  /\ regionsOfInterest (snd (estimateHand Math tf this image config)) = []
  /\ shouldUpdateRegionsOfInterest
       (snd (estimateHand Math tf this image config)) = true.
Proof.
  intro Hframe.
  assert (Hnull : exists this1,
             estimateHand Math tf this image config
             = (Returned None, set_regionsOfInterest this1 [])).
  { destruct Hframe as [[Efresh Ebounds] | [handImage [Himage Hlow]]].
    - exists this. unfold estimateHand, detectOrCount.
      rewrite Efresh, Ebounds. reflexivity.
    - destruct (estimateHand_from_handImage Math tf this image config
                  handImage Himage)
        as [this1 [current [box [angle [rot [_ E]]]]]].
      exists this1. rewrite E.
      destruct (predict tf handImage) as [flagValue rawCoords].
      cbn [fst] in Hlow. rewrite Hlow. reflexivity. }
  destruct Hnull as [this1 ->]. simpl.
  split; [reflexivity|]. split; [reflexivity|].
  apply shouldUpdate_no_region. reflexivity.
Qed.

(** ** Geometry on finite boxes *)

Ltac finite_arith :=
  cbn [JS.add JS.sub JS.mul JS.neg JS.max2 JS.min2 JS.eqv fst snd
       at0 at1 at2 Indexed_Point2D Indexed_Point3D
       startPoint endPoint palmLandmarks finiteBox].

Lemma getBoxSize_finite (sx sy ex ey : Q) palm :
  Bounding.getBoxSize (finiteBox sx sy ex ey palm)
  = (Fin (ex - sx), Fin (ey - sy)).
Proof. reflexivity. Qed.

Lemma getBoxCenter_finite (sx sy ex ey : Q) palm :
  Bounding.getBoxCenter (finiteBox sx sy ex ey palm)
  = (Fin (sx + (ex - sx) / 2), Fin (sy + (ey - sy) / 2)).
Proof.
  unfold Bounding.getBoxCenter. finite_arith. rewrite !div_two. reflexivity.
Qed.

(** C7: with angle 0 and the rotation matrix built for angle 0 (about any
    finite pivot), [transformRawCoords] sends a raw keypoint whose x and y
    are the centre of the model input, [(meshWidth / 2, meshHeight / 2)], to
    the centre of the crop box, with its depth unchanged.  The box, the
    pivot and the keypoint are finite, the mesh sizes are finite and not
    zero, and [Math.cos(0)] is 1 and [Math.sin(0)] is 0. *)
Theorem transformRawCoords_center (Math : MathObject) (this : HandPipeline)
    (rawCoords : list Point3D) (i : nat)
    (sx sy ex ey px py w h kx ky z : Q) (palm : option (list Point2D)) :
  (Math_cos Math (Fin 0) =~ Fin 1)%js ->
  (Math_sin Math (Fin 0) =~ Fin 0)%js ->
  meshWidth this = Fin w -> meshHeight this = Fin h ->
  ~ w == 0 -> ~ h == 0 ->
  kx == w / 2 -> ky == h / 2 ->
  nth_error rawCoords i = Some (Fin kx, Fin ky, Fin z) ->
  exists mapped,
    nth_error
      (transformRawCoords Math this rawCoords (finiteBox sx sy ex ey palm)
         (Fin 0) (Util.buildRotationMatrix Math (- Fin 0)%js (Fin px, Fin py)))
      i = Some mapped
    /\ point3_eqv mapped
         (fst (Bounding.getBoxCenter (finiteBox sx sy ex ey palm)),
          snd (Bounding.getBoxCenter (finiteBox sx sy ex ey palm)),
          Fin z).
Proof.
  intros Hcos Hsin Hw Hh Hw0 Hh0 Hkx Hky Hi.
  apply eqv_finite in Hcos. destruct Hcos as [c [Hcos Hc]].
  apply eqv_finite in Hsin. destruct Hsin as [s [Hsin Hs]].
  unfold transformRawCoords. rewrite !nth_error_map, Hi.
  cbn [option_map]. eexists. split; [reflexivity|].
  rewrite getBoxCenter_finite, getBoxSize_finite, Hw, Hh.
  unfold Util.buildRotationMatrix, Util.rotatePoint, Util.invertTransformMatrix,
    Util.dot, homogeneous, JS.zero, JS.one.
  change (- Fin 0)%js with (Fin 0). rewrite Hcos, Hsin.
  finite_arith. rewrite !div_two, !div_finite by assumption.
  unfold point3_eqv. finite_arith.
  rewrite Hc, Hs, Hkx, Hky.
  repeat split; try reflexivity; field; repeat split; assumption.
Qed.

(** The hand box for a raw bounding box (10,10)-(50,90): shifted by
    (0, -0.1) of its size it is (10,2)-(50,82), squarified (-10,2)-(70,82),
    enlarged by 1.65 (-36,-24)-(96,108). *)
Lemma handBox_corners (raw : Box) :
  point2_eqv (startPoint raw) (Fin 10, Fin 10) ->
  point2_eqv (endPoint raw) (Fin 50, Fin 90) ->
  let shifted := Bounding.shiftBox raw HAND_BOX_SHIFT_VECTOR in
  let squared := Bounding.squarifyBox shifted in
  let enlarged := Bounding.enlargeBox squared HAND_BOX_ENLARGE_FACTOR in
  (point2_eqv (startPoint shifted) (Fin 10, Fin 2)
   /\ point2_eqv (endPoint shifted) (Fin 50, Fin 82))
  /\ (point2_eqv (startPoint squared) (Fin (-10), Fin 2)
      /\ point2_eqv (endPoint squared) (Fin 70, Fin 82))
  /\ (point2_eqv (startPoint enlarged) (Fin (-36), Fin (-24))
      /\ point2_eqv (endPoint enlarged) (Fin 96, Fin 108)).
Proof.
  destruct raw as [[rsx rsy] [rex rey] palm]. unfold point2_eqv. simpl fst.
  simpl snd. simpl startPoint. simpl endPoint.
  intros [Hsx Hsy] [Hex Hey].
  apply eqv_finite in Hsx, Hsy, Hex, Hey.
  destruct Hsx as [sx [-> Hsx]]. destruct Hsy as [sy [-> Hsy]].
  destruct Hex as [ex [-> Hex]]. destruct Hey as [ey [-> Hey]].
  unfold Bounding.enlargeBox, Bounding.squarifyBox, Bounding.shiftBox,
    Bounding.getBoxCenter, Bounding.getBoxSize,
    HAND_BOX_SHIFT_VECTOR, HAND_BOX_ENLARGE_FACTOR.
  finite_arith. rewrite !div_two. finite_arith. rewrite !div_two. finite_arith.
  assert (Hmax : Qmax (ex + (ex - sx) * 0 - (sx + (ex - sx) * 0))
                      (ey + (ey - sy) * (-0.1) - (sy + (ey - sy) * (-0.1)))
                 == 80).
  { rewrite Q.max_r; lra. }
  rewrite !Hmax, Hsx, Hsy, Hex, Hey.
  repeat split; field.
Qed.

(** ** The box around the hand *)

Lemma collectPalmLandmarks_in_range (landmarks : list Point3D)
    (ids : list nat) :
  Forall (fun id => (id < length landmarks)%nat) ids ->
  collectPalmLandmarks landmarks ids
  = Some (map (fun id => slice2 (nth id landmarks origin3)) ids).
Proof.
  induction 1 as [|id rest Hid _ IH]; simpl.
  - reflexivity.
  - rewrite (nth_error_nth' landmarks origin3 Hid), IH. reflexivity.
Qed.

(** C9: for 21 landmarks whose bounding box is (10,10)-(50,90),
    [getBoxForHandLandmarks] returns the box obtained from that bounding box
    by shifting by (0, -0.1), squarifying and enlarging by 1.65, which is
    (-36,-24)-(96,108), and its [palmLandmarks] are the landmarks at indices
    0, 5, 9, 13, 17, 1, 2 in this order, each cut to its first two
    components. *)
Theorem getBoxForHandLandmarks_example (landmarks : list Point3D) :
  length landmarks = 21%nat ->
  point2_eqv (startPoint (calculateLandmarksBoundingBox landmarks))
             (Fin 10, Fin 10) ->
  point2_eqv (endPoint (calculateLandmarksBoundingBox landmarks))
             (Fin 50, Fin 90) ->
  exists box,
    getBoxForHandLandmarks landmarks = Some box
    /\ (startPoint box, endPoint box)
       = (let enlarged :=
            Bounding.enlargeBox
              (Bounding.squarifyBox
                 (Bounding.shiftBox (calculateLandmarksBoundingBox landmarks)
                    (Fin 0, Fin (-0.1))))
              (Fin 1.65) in
          (startPoint enlarged, endPoint enlarged))
    /\ point2_eqv (startPoint box) (Fin (-36), Fin (-24))
    /\ point2_eqv (endPoint box) (Fin 96, Fin 108)
    /\ palmLandmarks box
       = Some (map (fun id => slice2 (nth id landmarks origin3))
                   [0; 5; 9; 13; 17; 1; 2]%nat).
Proof.
  intros Hlen Hstart Hend.
  assert (Hpalm : collectPalmLandmarks landmarks PALM_LANDMARK_IDS
                  = Some (map (fun id => slice2 (nth id landmarks origin3))
                              PALM_LANDMARK_IDS)).
  { apply collectPalmLandmarks_in_range. rewrite Hlen.
    unfold PALM_LANDMARK_IDS. repeat constructor; lia. }
  unfold getBoxForHandLandmarks. rewrite Hpalm.
  eexists. split; [reflexivity|].
  cbn [startPoint endPoint palmLandmarks].
  destruct (handBox_corners _ Hstart Hend) as [_ [_ [Hs He]]].
  split; [reflexivity|]. split; [exact Hs|]. split; [exact He|].
  reflexivity.
Qed.

(** ** The statements at sample values *)

(** The three cases of the unforced update: a tracked box retained
    ([farBox] against [nearBox]), a tracked box replaced ([trackedBox] by
    [incomingBox]), and a first box installed. *)
Lemma updateRegionsOfInterest_not_forced_witness :
  updateRegionsOfInterest (tracking farBox 0) nearBox false = tracking farBox 0
  /\ regionsOfInterest
       (updateRegionsOfInterest (tracking trackedBox 0) incomingBox false)
     = [incomingBox]
  /\ regionsOfInterest (updateRegionsOfInterest samplePipeline incomingBox false)
     = [incomingBox].
Proof.
  split; [|split].
  - destruct (updateRegionsOfInterest_not_forced (tracking farBox 0) nearBox)
      as [Htracked _].
    destruct (Htracked farBox [] eq_refl) as [_ [Hretain _]].
    apply Hretain. vm_compute. reflexivity.
  - destruct (updateRegionsOfInterest_not_forced (tracking trackedBox 0)
                incomingBox) as [Htracked _].
    destruct (Htracked trackedBox [] eq_refl) as [_ [_ Hreplace]].
    apply Hreplace. vm_compute. reflexivity.
  - destruct (updateRegionsOfInterest_not_forced samplePipeline incomingBox)
      as [_ Hfirst].
    destruct (Hfirst eq_refl) as [_ Hinstall]. exact Hinstall.
Defined.

(** A forced update with five frames counted keeps the five. *)
Lemma updateRegionsOfInterest_forced_keeps_counter :
  ~ (regionsOfInterest
       (updateRegionsOfInterest (tracking trackedBox 5) incomingBox true)
     = [incomingBox]
     /\ runsWithoutHandDetector
          (updateRegionsOfInterest (tracking trackedBox 5) incomingBox true)
        = 0%Z).
Proof. intros [_ Hcounter]. discriminate Hcounter. Qed.

(** The first frame of a new pipeline, with a palm detected: the counter is
    zero when [estimateHand] is left. *)
Lemma updateRegionsOfInterest_forced_witness :
  runsWithoutHandDetector
    (snd (estimateHand mathAtZero (sampleCollaborators (Fin 0.9))
            samplePipeline tt sampleConfig))
  = 0%Z.
Proof.
  destruct (updateRegionsOfInterest_forced samplePipeline samplePalm)
    as [_ [_ Hframe]].
  destruct (Hframe mathAtZero unit (sampleCollaborators (Fin 0.9)) tt
              sampleConfig eq_refl eq_refl) as [_ Hcounter].
  exact Hcounter.
Defined.

(** The first frame of a new pipeline, with a palm detected and a mesh
    detector that answers 0.1, against a threshold of 0.5, for the hand
    image of this frame (cut from a box that starts at x = 18.5) and 0.9 for
    hand images cut further right. *)
Lemma estimateHand_resets_witness :
  fst (estimateHand mathAtZero (cropCollaborators (Fin 0.1, sampleLandmarks))
         samplePipeline None sampleConfig) = Returned None
  /\ regionsOfInterest
       (snd (estimateHand mathAtZero
               (cropCollaborators (Fin 0.1, sampleLandmarks))
               samplePipeline None sampleConfig)) = []
  /\ shouldUpdateRegionsOfInterest
       (snd (estimateHand mathAtZero
               (cropCollaborators (Fin 0.1, sampleLandmarks))
               samplePipeline None sampleConfig)) = true.
Proof.
  apply estimateHand_resets. right.
  eexists. split; [reflexivity|]. vm_compute. reflexivity.
Defined.

(** A mesh input of 256 by 256, the crop box (100,200)-(300,400) and the
    raw keypoint (128, 128, 5). *)
Lemma transformRawCoords_center_witness :
  exists mapped,
    nth_error
      (transformRawCoords mathAtZero samplePipeline
         [(Fin 128, Fin 128, Fin 5)] (finiteBox 100 200 300 400 None)
         (Fin 0)
         (Util.buildRotationMatrix mathAtZero (- Fin 0)%js (Fin 7, Fin 9)))
      0 = Some mapped
    /\ point3_eqv mapped
         (fst (Bounding.getBoxCenter (finiteBox 100 200 300 400 None)),
          snd (Bounding.getBoxCenter (finiteBox 100 200 300 400 None)),
          Fin 5).
Proof.
  apply (transformRawCoords_center mathAtZero samplePipeline
           [(Fin 128, Fin 128, Fin 5)] 0 100 200 300 400 7 9 256 256 128 128 5
           None);
    try reflexivity;
    intro H; vm_compute in H; discriminate H.
Defined.

(** The hand box of [sampleLandmarks]. *)
Lemma getBoxForHandLandmarks_example_witness :
  exists box,
    getBoxForHandLandmarks sampleLandmarks = Some box
    /\ point2_eqv (startPoint box) (Fin (-36), Fin (-24))
    /\ point2_eqv (endPoint box) (Fin 96, Fin 108).
Proof.
  assert (Hstart : point2_eqv
                     (startPoint (calculateLandmarksBoundingBox sampleLandmarks))
                     (Fin 10, Fin 10)).
  { split; vm_compute; reflexivity. }
  assert (Hend : point2_eqv
                   (endPoint (calculateLandmarksBoundingBox sampleLandmarks))
                   (Fin 50, Fin 90)).
  { split; vm_compute; reflexivity. }
  destruct (getBoxForHandLandmarks_example sampleLandmarks eq_refl Hstart Hend)
    as [box [Hbox [_ [Hs [He _]]]]].
  exists box. split; [exact Hbox|]. split; assumption.
Defined.

(** The pipeline object after the first frame of a new pipeline. *)
Lemma reachable_roiInvariant_witness :
  (length
     (regionsOfInterest
        (snd (estimateHand mathAtZero (sampleCollaborators (Fin 0.9))
                samplePipeline tt sampleConfig))) <= 1)%nat
  /\ forall box,
       In box
          (regionsOfInterest
             (snd (estimateHand mathAtZero (sampleCollaborators (Fin 0.9))
                     samplePipeline tt sampleConfig))) ->
       palmLandmarks box <> None.
Proof.
  apply (reachable_roiInvariant mathAtZero (sampleCollaborators (Fin 0.9))).
  - intros image box E. injection E as <-. discriminate.
  - apply reachable_estimateHand. apply reachable_constructor.
Defined.

(** ** The bounding box of landmarks *)

Lemma fold_min2_finite (xs : list number) :
  Forall JS.is_finite xs ->
  forall a : Q,
  exists m,
    fold_left JS.min2 xs (Fin a) = Fin m
    /\ m <= a
    /\ (forall q, In (Fin q) xs -> m <= q)
    /\ (Fin m = Fin a \/ In (Fin m) xs).
Proof.
  induction 1 as [|x xs Hx _ IH]; intro a.
  - exists a. simpl. repeat split; [apply Qle_refl | intros q [] | left; reflexivity].
  - destruct x as [q | | |]; try contradiction. simpl.
    destruct (IH (Qmin a q)) as [m [E [Hle [Hall Hin]]]].
    exists m. split; [exact E|].
    assert (Ha : Qmin a q <= a) by apply Q.le_min_l.
    assert (Hq : Qmin a q <= q) by apply Q.le_min_r.
    split; [lra|]. split.
    + intros q' [Eq | Hq']; [injection Eq as <-; lra | apply Hall; exact Hq'].
    + destruct Hin as [Em | Hin]; [|right; right; exact Hin].
      rewrite Em. unfold Qmin, GenericMinMax.gmin.
      destruct (a ?= q); [left | left | right; left]; reflexivity.
Qed.

Lemma fold_max2_finite (xs : list number) :
  Forall JS.is_finite xs ->
  forall a : Q,
  exists m,
    fold_left JS.max2 xs (Fin a) = Fin m
    /\ a <= m
    /\ (forall q, In (Fin q) xs -> q <= m)
    /\ (Fin m = Fin a \/ In (Fin m) xs).
Proof.
  induction 1 as [|x xs Hx _ IH]; intro a.
  - exists a. simpl. repeat split; [apply Qle_refl | intros q [] | left; reflexivity].
  - destruct x as [q | | |]; try contradiction. simpl.
    destruct (IH (Qmax a q)) as [m [E [Hle [Hall Hin]]]].
    exists m. split; [exact E|].
    assert (Ha : a <= Qmax a q) by apply Q.le_max_l.
    assert (Hq : q <= Qmax a q) by apply Q.le_max_r.
    split; [lra|]. split.
    + intros q' [Eq | Hq']; [injection Eq as <-; lra | apply Hall; exact Hq'].
    + destruct Hin as [Em | Hin]; [|right; right; exact Hin].
      rewrite Em. unfold Qmax, GenericMinMax.gmax.
      destruct (a ?= q); [left | right; left | left]; reflexivity.
Qed.

(** [Math.min] of finite numbers, at least one: it is one of them, and none
    is below it. *)
Lemma min_of_finite (xs : list number) :
  Forall JS.is_finite xs -> xs <> [] ->
  exists m,
    JS.min_of xs = Fin m
    /\ (forall q, In (Fin q) xs -> m <= q)
    /\ In (Fin m) xs.
Proof.
  intros Hfin Hne. destruct xs as [|x xs]; [contradiction|].
  inversion Hfin as [|? ? Hx Hxs]; subst.
  destruct x as [a | | |]; try contradiction.
  destruct (fold_min2_finite xs Hxs a) as [m [E [Hle [Hall Hin]]]].
  exists m. split; [exact E|]. split.
  - intros q [Eq | Hq]; [injection Eq as <-; exact Hle | apply Hall; exact Hq].
  - destruct Hin as [-> | Hin]; [left; reflexivity | right; exact Hin].
Qed.

Lemma max_of_finite (xs : list number) :
  Forall JS.is_finite xs -> xs <> [] ->
  exists m,
    JS.max_of xs = Fin m
    /\ (forall q, In (Fin q) xs -> q <= m)
    /\ In (Fin m) xs.
Proof.
  intros Hfin Hne. destruct xs as [|x xs]; [contradiction|].
  inversion Hfin as [|? ? Hx Hxs]; subst.
  destruct x as [a | | |]; try contradiction.
  destruct (fold_max2_finite xs Hxs a) as [m [E [Hle [Hall Hin]]]].
  exists m. split; [exact E|]. split.
  - intros q [Eq | Hq]; [injection Eq as <-; exact Hle | apply Hall; exact Hq].
  - destruct Hin as [-> | Hin]; [left; reflexivity | right; exact Hin].
Qed.

Lemma finite_coordinates {P : Type} `{Indexed P} (landmarks : list P) :
  Forall finitePoint landmarks ->
  Forall JS.is_finite (map at0 landmarks)
  /\ Forall JS.is_finite (map at1 landmarks).
Proof.
  induction 1 as [|p rest [H0 H1] _ [IH0 IH1]]; simpl; split; constructor;
    assumption.
Qed.

(** The corners of the bounding box of finite landmarks, at least one: they
    are finite, each coordinate of a corner is the coordinate of some
    landmark, and every landmark lies between them. *)
Lemma boundingBox_finite {P : Type} `{Indexed P} (landmarks : list P) :
  Forall finitePoint landmarks -> landmarks <> [] ->
  exists sx sy ex ey,
    startPoint (calculateLandmarksBoundingBox landmarks) = (Fin sx, Fin sy)
    /\ endPoint (calculateLandmarksBoundingBox landmarks) = (Fin ex, Fin ey)
    /\ (forall p x y, In p landmarks -> at0 p = Fin x -> at1 p = Fin y ->
        sx <= x /\ x <= ex /\ sy <= y /\ y <= ey)
    /\ In (Fin sx) (map at0 landmarks) /\ In (Fin ex) (map at0 landmarks)
    /\ In (Fin sy) (map at1 landmarks) /\ In (Fin ey) (map at1 landmarks).
Proof.
  intros Hfin Hne. destruct (finite_coordinates landmarks Hfin) as [Hxs Hys].
  assert (Hnx : map at0 landmarks <> []) by (destruct landmarks; [contradiction | discriminate]).
  assert (Hny : map at1 landmarks <> []) by (destruct landmarks; [contradiction | discriminate]).
  destruct (min_of_finite _ Hxs Hnx) as [sx [Esx [Hsx Isx]]].
  destruct (min_of_finite _ Hys Hny) as [sy [Esy [Hsy Isy]]].
  destruct (max_of_finite _ Hxs Hnx) as [ex [Eex [Hex Iex]]].
  destruct (max_of_finite _ Hys Hny) as [ey [Eey [Hey Iey]]].
  exists sx, sy, ex, ey. unfold calculateLandmarksBoundingBox.
  cbn [startPoint endPoint]. rewrite Esx, Esy, Eex, Eey.
  split; [reflexivity|]. split; [reflexivity|].
  split; [|repeat split; assumption].
  intros p x y Hp Hx Hy.
  assert (Ix : In (Fin x) (map at0 landmarks)) by (rewrite <- Hx; apply in_map; exact Hp).
  assert (Iy : In (Fin y) (map at1 landmarks)) by (rewrite <- Hy; apply in_map; exact Hp).
  repeat split; auto.
Qed.

(** X1: the bounding box of finite landmarks contains every one of them. *)
Theorem calculateLandmarksBoundingBox_contains {P : Type} `{Indexed P}
    (landmarks : list P) (p : P) :
  Forall finitePoint landmarks ->
  In p landmarks ->
  insideBox p (calculateLandmarksBoundingBox landmarks).
Proof.
  intros Hfin Hp.
  assert (Hne : landmarks <> []) by (intros ->; contradiction).
  destruct (boundingBox_finite landmarks Hfin Hne)
    as [sx [sy [ex [ey [Es [Ee [Hall _]]]]]]].
  assert (Hpf : finitePoint p) by (rewrite Forall_forall in Hfin; auto).
  destruct Hpf as [Hx Hy].
  destruct (at0 p) as [x | | |] eqn:Ex; try contradiction.
  destruct (at1 p) as [y | | |] eqn:Ey; try contradiction.
  exists x, y, sx, sy, ex, ey.
  destruct (Hall p x y Hp Ex Ey) as [H1 [H2 [H3 H4]]].
  repeat split; assumption.
Qed.

Lemma fold_min2_NaN (xs : list number) : fold_left JS.min2 xs NaN = NaN.
Proof. induction xs as [|x xs IH]; simpl; [reflexivity | exact IH]. Qed.

Lemma fold_max2_NaN (xs : list number) : fold_left JS.max2 xs NaN = NaN.
Proof. induction xs as [|x xs IH]; simpl; [reflexivity | exact IH]. Qed.

Lemma min2_NaN_r (a : number) : JS.min2 a NaN = NaN.
Proof. destruct a; reflexivity. Qed.

Lemma max2_NaN_r (a : number) : JS.max2 a NaN = NaN.
Proof. destruct a; reflexivity. Qed.

Lemma fold_min2_poisoned (xs : list number) (a : number) :
  In NaN xs -> fold_left JS.min2 xs a = NaN.
Proof.
  revert a. induction xs as [|x xs IH]; intros a Hin; [contradiction|].
  simpl. destruct Hin as [-> | Hin].
  - rewrite min2_NaN_r. apply fold_min2_NaN.
  - apply IH. exact Hin.
Qed.

Lemma fold_max2_poisoned (xs : list number) (a : number) :
  In NaN xs -> fold_left JS.max2 xs a = NaN.
Proof.
  revert a. induction xs as [|x xs IH]; intros a Hin; [contradiction|].
  simpl. destruct Hin as [-> | Hin].
  - rewrite max2_NaN_r. apply fold_max2_NaN.
  - apply IH. exact Hin.
Qed.

(** X2: without landmarks the bounding box is the inverted box from
    (Infinity, Infinity) to (-Infinity, -Infinity); and one landmark with a
    [NaN] coordinate makes both corners [NaN] in that coordinate, whatever
    the other landmarks are. *)
Theorem calculateLandmarksBoundingBox_degenerate {P : Type} `{Indexed P} :
  calculateLandmarksBoundingBox (@nil P)
  = {| startPoint := (PosInfinity, PosInfinity);
       endPoint := (NegInfinity, NegInfinity);
       palmLandmarks := None |}
  /\ forall (landmarks : list P) (p : P),
       In p landmarks ->
       (at0 p = NaN ->
        fst (startPoint (calculateLandmarksBoundingBox landmarks)) = NaN
        /\ fst (endPoint (calculateLandmarksBoundingBox landmarks)) = NaN)
       /\ (at1 p = NaN ->
           snd (startPoint (calculateLandmarksBoundingBox landmarks)) = NaN
           /\ snd (endPoint (calculateLandmarksBoundingBox landmarks)) = NaN).
Proof.
  split; [reflexivity|].
  intros landmarks p Hp. unfold calculateLandmarksBoundingBox.
  cbn [startPoint endPoint fst snd]. unfold JS.min_of, JS.max_of.
  split; intro E.
  - assert (Hin : In NaN (map at0 landmarks)) by (rewrite <- E; apply in_map; exact Hp).
    split; [apply fold_min2_poisoned | apply fold_max2_poisoned]; exact Hin.
  - assert (Hin : In NaN (map at1 landmarks)) by (rewrite <- E; apply in_map; exact Hp).
    split; [apply fold_min2_poisoned | apply fold_max2_poisoned]; exact Hin.
Qed.

Lemma collectPalmLandmarks_missing (landmarks : list Point3D) (ids : list nat)
    (id : nat) :
  In id ids -> nth_error landmarks id = None ->
  collectPalmLandmarks landmarks ids = None.
Proof.
  induction ids as [|i rest IH]; intros Hin Hnone; [contradiction|].
  simpl. destruct Hin as [-> | Hin].
  - rewrite Hnone. reflexivity.
  - destruct (nth_error landmarks i); [|reflexivity].
    rewrite (IH Hin Hnone). reflexivity.
Qed.

(** X3: [getBoxForHandLandmarks] throws exactly when there are fewer than
    18 landmarks: the palm landmark ids reach 17, and nothing else in it can
    fail. *)
Theorem getBoxForHandLandmarks_throws_iff (landmarks : list Point3D) :
  getBoxForHandLandmarks landmarks = None <-> (length landmarks < 18)%nat.
Proof.
  unfold getBoxForHandLandmarks. split.
  - intro Hnone.
    destruct (Nat.lt_ge_cases (length landmarks) 18) as [Hlt | Hge];
      [exact Hlt|].
    rewrite collectPalmLandmarks_in_range in Hnone; [discriminate|].
    unfold PALM_LANDMARK_IDS. repeat constructor; lia.
  - intro Hlt.
    rewrite (collectPalmLandmarks_missing landmarks PALM_LANDMARK_IDS 17);
      [reflexivity | unfold PALM_LANDMARK_IDS; simpl; tauto |].
    apply nth_error_None. lia.
Qed.

Lemma collectPalmLandmarks_withDepth (depth : Point3D -> number)
    (landmarks : list Point3D) (ids : list nat) :
  collectPalmLandmarks (map (withDepth depth) landmarks) ids
  = collectPalmLandmarks landmarks ids.
Proof.
  induction ids as [|id rest IH]; simpl; [reflexivity|].
  rewrite nth_error_map, IH.
  destruct (nth_error landmarks id) as [[[x y] z]|]; reflexivity.
Qed.

(** X4: the hand box does not depend on the depth of the landmarks: the
    corners and the palm landmarks are read from the first two components
    only. *)
Theorem getBoxForHandLandmarks_ignores_depth (depth : Point3D -> number)
    (landmarks : list Point3D) :
  getBoxForHandLandmarks (map (withDepth depth) landmarks)
  = getBoxForHandLandmarks landmarks.
Proof.
  unfold getBoxForHandLandmarks, calculateLandmarksBoundingBox.
  rewrite collectPalmLandmarks_withDepth, !map_map.
  assert (E0 : map (fun p => at0 (withDepth depth p)) landmarks
               = map at0 landmarks)
    by (apply map_ext; intros [[x y] z]; reflexivity).
  assert (E1 : map (fun p => at1 (withDepth depth p)) landmarks
               = map at1 landmarks)
    by (apply map_ext; intros [[x y] z]; reflexivity).
  rewrite E0, E1. reflexivity.
Qed.

(** ** More on the update of the tracked region *)

(** X5: applying the same update twice is applying it once, forced or not
    and whatever the numbers in the boxes. *)
Theorem updateRegionsOfInterest_idempotent (this : HandPipeline) (box : Box)
    (forceUpdate : bool) :
  updateRegionsOfInterest (updateRegionsOfInterest this box forceUpdate)
    box forceUpdate
  = updateRegionsOfInterest this box forceUpdate.
Proof.
  destruct forceUpdate; [reflexivity|].
  destruct this as [rois runs checks conf w h].
  unfold updateRegionsOfInterest, previousIou.
  cbn [regionsOfInterest set_regionsOfInterest runsWithoutHandDetector
       maxContinuousChecks detectionConfidence meshWidth meshHeight].
  destruct rois as [|previous rest].
  - cbn [nth_error assignFirst].
    destruct (iou box box >? UPDATE_REGION_OF_INTEREST_IOU_THRESHOLD)%js;
      reflexivity.
  - cbn [nth_error assignFirst].
    destruct (iou box previous >? UPDATE_REGION_OF_INTEREST_IOU_THRESHOLD)%js
      eqn:E; cbn [nth_error assignFirst].
    + rewrite E. reflexivity.
    + destruct (iou box box >? UPDATE_REGION_OF_INTEREST_IOU_THRESHOLD)%js;
        reflexivity.
Qed.

(** X6: an update never leaves the tracked regions empty, and an unforced
    one writes element 0 only: what follows it stays, and element 0 is
    afterwards the new box or what it was. *)
Theorem updateRegionsOfInterest_writes_first (this : HandPipeline) (box : Box) :
  (forall forceUpdate,
      regionsOfInterest (updateRegionsOfInterest this box forceUpdate) <> [])
  /\ tl (regionsOfInterest (updateRegionsOfInterest this box false))
     = tl (regionsOfInterest this)
  /\ length (regionsOfInterest (updateRegionsOfInterest this box false))
     = Nat.max 1 (length (regionsOfInterest this))
  /\ (hd_error (regionsOfInterest (updateRegionsOfInterest this box false))
      = Some box
      \/ hd_error (regionsOfInterest (updateRegionsOfInterest this box false))
         = hd_error (regionsOfInterest this)).
Proof.
  unfold updateRegionsOfInterest, previousIou.
  destruct (regionsOfInterest this) as [|previous rest] eqn:E.
  - split; [intros []; discriminate|]. cbn. repeat split. left. reflexivity.
  - cbn [nth_error assignFirst set_regionsOfInterest regionsOfInterest].
    split; [intros []; rewrite ?E; discriminate|].
    destruct (iou box previous >? UPDATE_REGION_OF_INTEREST_IOU_THRESHOLD)%js;
      cbn [tl hd_error length]; repeat split; auto.
Qed.

(** X7: for a box with finite corners one side of which has length zero,
    the intersection over union computed against a tracked box of the same
    corners is [NaN] (zero over zero), not one; it does not exceed the
    threshold, so the unforced update puts the incoming box in the place of
    the tracked one. *)
Theorem iou_degenerate_box (this : HandPipeline) (sx sy ex ey : Q)
    (palm palm' : option (list Point2D)) (rest : list Box) :
  sx == ex \/ sy == ey ->
  regionsOfInterest this = finiteBox sx sy ex ey palm' :: rest ->
  iou (finiteBox sx sy ex ey palm) (finiteBox sx sy ex ey palm') = NaN
  /\ previousIou this (finiteBox sx sy ex ey palm) = NaN
  /\ regionsOfInterest
       (updateRegionsOfInterest this (finiteBox sx sy ex ey palm) false)
     = finiteBox sx sy ex ey palm :: rest.
Proof.
  intros Hside Erois.
  assert (Harea : (ex - sx) * (ey - sy) == 0) by (destruct Hside; nra).
  assert (Eiou : iou (finiteBox sx sy ex ey palm) (finiteBox sx sy ex ey palm')
                 = NaN).
  { rewrite iou_finite, !Qmax_same, !Qmin_same. unfold JS.div.
    assert (Hden : Qeq_bool ((ex - sx) * (ey - sy) + (ex - sx) * (ey - sy)
                             - (ex - sx) * (ey - sy)) 0 = true)
      by (apply Qeq_bool_iff; lra).
    assert (Hnum : ((ex - sx) * (ey - sy) ?= 0) = Eq)
      by (apply Qeq_alt; exact Harea).
    rewrite Hden, Hnum. reflexivity. }
  split; [exact Eiou|].
  unfold updateRegionsOfInterest, previousIou. rewrite Erois.
  cbn [nth_error assignFirst set_regionsOfInterest regionsOfInterest].
  rewrite Eiou. split; reflexivity.
Qed.

(** ** More on one frame *)

(** What a call of [estimateHand] that got past the detection branch ends
    in: an exception with the pipeline as the branch left it, [null] with
    the regions emptied, or a result with an unforced update. *)
Lemma estimateHand_continued (Math : MathObject) {Image : Type}
    (tf : Collaborators Image) (this this1 : HandPipeline) (image : Image)
    (config : Config) :
  detectOrCount tf this image (shouldUpdateRegionsOfInterest this)
  = inr this1 ->
  estimateHand Math tf this image config = (Thrown, this1)
  \/ estimateHand Math tf this image config
     = (Returned None, set_regionsOfInterest this1 [])
  \/ exists result nextBoundingBox,
       estimateHand Math tf this image config
       = (Returned (Some result),
          updateRegionsOfInterest this1 nextBoundingBox false)
       /\ getBoxForHandLandmarks (landmarks result) = Some nextBoundingBox
       /\ topLeft result = startPoint nextBoundingBox
       /\ bottomRight result = endPoint nextBoundingBox
       /\ (confidence result <? minConfidence config)%js = false.
Proof.
  intro Hstage. unfold estimateHand. rewrite Hstage.
  destruct (nth_error (regionsOfInterest this1) 0) as [currentBox|];
    [|left; reflexivity].
  destruct (palmLandmarks currentBox) as [palm|]; [|left; reflexivity].
  destruct (nth_error palm PALM_LANDMARKS_INDEX_OF_PALM_BASE);
    [|left; reflexivity].
  destruct (nth_error palm PALM_LANDMARKS_INDEX_OF_MIDDLE_FINGER_BASE);
    [|left; reflexivity].
  match goal with
  | |- context [predict tf ?i] =>
      destruct (predict tf i) as [flagValue rawCoords]
  end.
  destruct (flagValue <? minConfidence config)%js eqn:Eflag;
    [right; left; reflexivity|].
  match goal with
  | |- context [getBoxForHandLandmarks ?c] =>
      destruct (getBoxForHandLandmarks c) as [next|] eqn:Enext
  end; [|left; reflexivity].
  right. right. eexists. exists next. split; [reflexivity|].
  cbn [landmarks topLeft bottomRight confidence]. repeat split; assumption.
Qed.

(** X8: a frame on which no full detection is due does not depend on the
    bounding box detector, and a frame on which that detector finds no palm
    does not depend on the mesh detector. *)
Theorem estimateHand_detectors_consulted (Math : MathObject) {Image : Type}
    (tf : Collaborators Image) (this : HandPipeline) (image : Image)
    (config : Config) :
  (shouldUpdateRegionsOfInterest this = false ->
   forall detector,
     estimateHand Math (withBoundingBoxDetector tf detector) this image config
     = estimateHand Math tf this image config)
  /\ (shouldUpdateRegionsOfInterest this = true ->
      estimateHandBounds tf image = None ->
      forall mesh,
        estimateHand Math (withMeshDetector tf mesh) this image config
        = estimateHand Math tf this image config).
Proof.
  split.
  - intros Efresh detector. unfold estimateHand, detectOrCount.
    rewrite Efresh. reflexivity.
  - intros Efresh Ebounds mesh. unfold estimateHand, detectOrCount.
    rewrite Efresh. cbn [estimateHandBounds withMeshDetector].
    rewrite Ebounds. reflexivity.
Qed.


(** X9: what a call of [estimateHand] does to the counter, however it ends:
    it is left alone when the detector is consulted and finds no palm, set
    to zero when the detector finds one, and incremented on a frame on which
    no full detection is due.  The parameters of the constructor are never
    written. *)
Theorem estimateHand_counter (Math : MathObject) {Image : Type}
    (tf : Collaborators Image) (this : HandPipeline) (image : Image)
    (config : Config) :
  runsWithoutHandDetector (snd (estimateHand Math tf this image config))
  = (if shouldUpdateRegionsOfInterest this
     then match estimateHandBounds tf image with
          | None => runsWithoutHandDetector this
          | Some _ => 0
          end
     else runsWithoutHandDetector this + 1)%Z
  /\ maxContinuousChecks (snd (estimateHand Math tf this image config))
     = maxContinuousChecks this
  /\ detectionConfidence (snd (estimateHand Math tf this image config))
     = detectionConfidence this
  /\ meshWidth (snd (estimateHand Math tf this image config)) = meshWidth this
  /\ meshHeight (snd (estimateHand Math tf this image config))
     = meshHeight this.
Proof.
  destruct (detectOrCount_cases tf this image)
    as [[Efresh [Ebounds Estage]]
       | [[detected [Efresh [Ebounds Estage]]]
         | [currentBox [Efresh [Erois Estage]]]]];
    rewrite Efresh; try rewrite Ebounds.
  - unfold estimateHand. rewrite Estage. repeat split.
  - destruct (estimateHand_continued Math tf this _ image config Estage)
      as [-> | [-> | [result [next [-> _]]]]]; repeat split.
  - destruct (estimateHand_continued Math tf this _ image config Estage)
      as [-> | [-> | [result [next [-> _]]]]]; repeat split.
Qed.

(** ** Sequences of frames *)

Lemma getBoxForHandLandmarks_enough (landmarks : list Point3D) :
  (18 <= length landmarks)%nat ->
  exists box,
    getBoxForHandLandmarks landmarks = Some box
    /\ exists palm, palmLandmarks box = Some palm /\ length palm = 7%nat.
Proof.
  intro Hlen. unfold getBoxForHandLandmarks.
  rewrite collectPalmLandmarks_in_range
    by (unfold PALM_LANDMARK_IDS; repeat constructor; lia).
  eexists. split; [reflexivity|]. eexists. split; reflexivity.
Qed.

Lemma getBoxForHandLandmarks_few (landmarks : list Point3D) :
  (length landmarks < 18)%nat -> getBoxForHandLandmarks landmarks = None.
Proof.
  intro Hlt. unfold getBoxForHandLandmarks.
  rewrite (collectPalmLandmarks_missing landmarks PALM_LANDMARK_IDS 17);
    [reflexivity | unfold PALM_LANDMARK_IDS; simpl; tauto |].
  apply nth_error_None. lia.
Qed.



(** X11: a call of [estimateHand] that returns a result.  The confidence in
    it is not below [config.minConfidence]; there are at least 18 landmarks
    in it, and its box is the hand box of these landmarks; afterwards
    exactly one region is tracked, and the next frame runs the full
    detection exactly when the counter, zero after a full detection and one
    more otherwise, has reached [maxContinuousChecks]. *)
Theorem estimateHand_result (Math : MathObject) {Image : Type}
    (tf : Collaborators Image) (this : HandPipeline) (image : Image)
    (config : Config) (result : Result) :
  fst (estimateHand Math tf this image config) = Returned (Some result) ->
  (confidence result <? minConfidence config)%js = false
  /\ (18 <= length (landmarks result))%nat
  /\ (exists nextBoundingBox,
         getBoxForHandLandmarks (landmarks result) = Some nextBoundingBox
         /\ topLeft result = startPoint nextBoundingBox
         /\ bottomRight result = endPoint nextBoundingBox)
  /\ length (regionsOfInterest (snd (estimateHand Math tf this image config)))
     = 1%nat
  /\ runsWithoutHandDetector (snd (estimateHand Math tf this image config))
     = (if shouldUpdateRegionsOfInterest this
        then 0 else runsWithoutHandDetector this + 1)%Z
  /\ (shouldUpdateRegionsOfInterest
        (snd (estimateHand Math tf this image config)) = true
      <-> (maxContinuousChecks this
           <= runsWithoutHandDetector
                (snd (estimateHand Math tf this image config)))%Z).
Proof.
  intro Hresult.
  assert (Hcont : exists this1 current next,
             regionsOfInterest this1 = [current]
             /\ runsWithoutHandDetector this1
                = (if shouldUpdateRegionsOfInterest this
                   then 0 else runsWithoutHandDetector this + 1)%Z
             /\ maxContinuousChecks this1 = maxContinuousChecks this
             /\ estimateHand Math tf this image config
                = (Returned (Some result),
                   updateRegionsOfInterest this1 next false)
             /\ getBoxForHandLandmarks (landmarks result) = Some next
             /\ topLeft result = startPoint next
             /\ bottomRight result = endPoint next
             /\ (confidence result <? minConfidence config)%js = false).
  { destruct (detectOrCount_cases tf this image)
      as [[Efresh [Ebounds Estage]]
         | [[detected [Efresh [Ebounds Estage]]]
           | [currentBox [Efresh [Erois Estage]]]]].
    - unfold estimateHand in Hresult. rewrite Estage in Hresult. discriminate.
    - destruct (estimateHand_continued Math tf this _ image config Estage)
        as [E | [E | [res [next [E [H1 [H2 [H3 H4]]]]]]]];
        rewrite E in Hresult; try discriminate.
      injection Hresult as <-. rewrite Efresh.
      exists (set_runsWithoutHandDetector
                (updateRegionsOfInterest this detected true) 0), detected, next.
      repeat split; assumption.
    - destruct (estimateHand_continued Math tf this _ image config Estage)
        as [E | [E | [res [next [E [H1 [H2 [H3 H4]]]]]]]];
        rewrite E in Hresult; try discriminate.
      injection Hresult as <-. rewrite Efresh.
      exists (set_runsWithoutHandDetector this
                (runsWithoutHandDetector this + 1)), currentBox, next.
      repeat split; assumption. }
  destruct Hcont
    as [this1 [current [next [Erois [Eruns [Echecks [E [H1 [H2 [H3 H4]]]]]]]]]].
  rewrite E. cbn [snd].
  assert (Hlen : length (regionsOfInterest
                           (updateRegionsOfInterest this1 next false)) = 1%nat).
  { unfold updateRegionsOfInterest, previousIou. rewrite Erois.
    cbn [nth_error assignFirst set_regionsOfInterest regionsOfInterest].
    reflexivity. }
  split; [exact H4|]. split.
  { destruct (Nat.lt_ge_cases (length (landmarks result)) 18) as [Hlt | Hge];
      [|exact Hge].
    rewrite (getBoxForHandLandmarks_few _ Hlt) in H1. discriminate. }
  split; [exists next; repeat split; assumption|].
  split; [exact Hlen|].
  destruct (updateRegionsOfInterest_fields this1 next false)
    as [Fruns [Fchecks _]].
  split; [rewrite Fruns; exact Eruns|].
  unfold shouldUpdateRegionsOfInterest. rewrite Hlen, Fchecks, Fruns, Echecks.
  cbn [Nat.eqb maxHandsNumber negb orb]. apply Z.leb_le.
Qed.

Lemma hasAnchors_handBox (landmarks : list Point3D) (box : Box) :
  getBoxForHandLandmarks landmarks = Some box -> hasAnchors box.
Proof.
  intro E. destruct (getBoxForHandLandmarks_palmLandmarks _ _ E)
    as [palm [Hpalm Hlen]].
  exists palm. split; [exact Hpalm | lia].
Qed.

Lemma anchorsInvariant_not_forced (this : HandPipeline) (current box : Box) :
  regionsOfInterest this = [current] ->
  hasAnchors current -> hasAnchors box ->
  anchorsInvariant (updateRegionsOfInterest this box false).
Proof.
  intros Erois Hcurrent Hbox. unfold anchorsInvariant, updateRegionsOfInterest,
    previousIou. rewrite Erois.
  cbn [nth_error assignFirst set_regionsOfInterest regionsOfInterest].
  destruct (iou box current >? UPDATE_REGION_OF_INTEREST_IOU_THRESHOLD)%js;
    intros b [<- | []]; assumption.
Qed.

(** One call under the contract of the collaborators: it does not throw,
    and the tracked boxes keep their anchors. *)
Lemma estimateHand_safe_step (Math : MathObject) {Image : Type}
    (tf : Collaborators Image) (this : HandPipeline) (image : Image)
    (config : Config) :
  collaboratorsContract tf ->
  anchorsInvariant this ->
  fst (estimateHand Math tf this image config) <> Thrown
  /\ anchorsInvariant (snd (estimateHand Math tf this image config)).
Proof.
  intros [Hdetector Hmesh] Hinv.
  assert (Hgo : forall this1 current,
             detectOrCount tf this image (shouldUpdateRegionsOfInterest this)
             = inr this1 ->
             regionsOfInterest this1 = [current] ->
             hasAnchors current ->
             fst (estimateHand Math tf this image config) <> Thrown
             /\ anchorsInvariant (snd (estimateHand Math tf this image config))).
  { intros this1 current Estage Erois [palm [Hpalm Hlen]].
    unfold estimateHand. rewrite Estage, Erois. cbn [nth_error].
    rewrite Hpalm. destruct (anchors_present palm Hlen) as [p0 [p2 [-> ->]]].
    match goal with
    | |- context [predict tf ?i] =>
        pose proof (Hmesh i) as Hrows;
        destruct (predict tf i) as [flagValue rawCoords]
    end.
    cbn [snd] in Hrows.
    destruct (flagValue <? minConfidence config)%js.
    - split; [discriminate | intros b []].
    - match goal with
      | |- context [getBoxForHandLandmarks ?c] =>
          destruct (getBoxForHandLandmarks_enough c) as [next [Enext _]]
      end.
      { rewrite transformRawCoords_length. exact Hrows. }
      rewrite Enext. split; [discriminate|]. cbn [snd].
      apply anchorsInvariant_not_forced with (current := current).
      + exact Erois.
      + exists palm. split; assumption.
      + exact (hasAnchors_handBox _ _ Enext). }
  destruct (detectOrCount_cases tf this image)
    as [[Efresh [Ebounds Estage]]
       | [[detected [Efresh [Ebounds Estage]]]
         | [currentBox [Efresh [Erois Estage]]]]].
  - unfold estimateHand. rewrite Estage. split; [discriminate | intros b []].
  - apply (Hgo _ detected Estage); [reflexivity|].
    exact (Hdetector _ _ Ebounds).
  - apply (Hgo _ currentBox Estage); [exact Erois|].
    apply Hinv. rewrite Erois. left. reflexivity.
Qed.

(** X12: when a detected palm box always has its anchor landmarks and the
    mesh detector always gives at least 18 keypoints, no call of
    [estimateHand] throws, over any sequence of calls: each returns a result
    or [null]. *)
Theorem estimateHand_never_throws (Math : MathObject) {Image : Type}
    (tf : Collaborators Image) (this : HandPipeline) (image : Image)
    (config : Config) :
  collaboratorsContract tf ->
  reachable Math tf this ->
  exists answer, fst (estimateHand Math tf this image config) = Returned answer.
Proof.
  intros Hcontract Hreach.
  assert (Hinv : anchorsInvariant this).
  { induction Hreach as [w h checks conf | this0 image0 config0 _ IH].
    - intros b [].
    - apply estimateHand_safe_step; assumption. }
  destruct (estimateHand_safe_step Math tf this image config Hcontract Hinv)
    as [Hthrown _].
  destruct (fst (estimateHand Math tf this image config)) as [answer|].
  - exists answer. reflexivity.
  - contradiction.
Qed.

(** X13: a frame on which the mesh detector, for the hand image of the
    frame, is confident but gives fewer than 18 keypoints ends in an
    exception, and the exception leaves the pipeline tracking one region:
    the regions are not emptied as they are for a frame without a hand. *)
Theorem estimateHand_too_few_keypoints (Math : MathObject) {Image : Type}
    (tf : Collaborators Image) (this : HandPipeline) (image : Image)
    (config : Config) (handImage : Image) :
  frameHandImage Math tf this image = Some handImage ->
  (fst (predict tf handImage) <? minConfidence config)%js = false ->
  (length (snd (predict tf handImage)) < 18)%nat ->
  fst (estimateHand Math tf this image config) = Thrown
  /\ length (regionsOfInterest (snd (estimateHand Math tf this image config)))
     = 1%nat.
Proof.
  intros Himage Hflag Hrows.
  destruct (estimateHand_from_handImage Math tf this image config handImage
              Himage)
    as [this1 [current [box [angle [rot [Erois E]]]]]].
  rewrite E. destruct (predict tf handImage) as [flagValue rawCoords].
  cbn [fst snd] in Hflag, Hrows. rewrite Hflag.
  cbv zeta. rewrite getBoxForHandLandmarks_few
    by (rewrite transformRawCoords_length; exact Hrows).
  cbn [fst snd]. rewrite Erois. split; reflexivity.
Qed.

(** A confident frame with enough keypoints returns a result. *)
Lemma estimateHand_gives_result (Math : MathObject) {Image : Type}
    (tf : Collaborators Image) (this : HandPipeline) (image : Image)
    (config : Config) :
  anchorsInvariant this ->
  collaboratorsContract tf ->
  (shouldUpdateRegionsOfInterest this = true ->
   estimateHandBounds tf image <> None) ->
  (forall handImage,
      (fst (predict tf handImage) <? minConfidence config)%js = false) ->
  exists result,
    fst (estimateHand Math tf this image config) = Returned (Some result).
Proof.
  intros Hinv [Hdetector Hmesh] Hfound Hflag.
  assert (Hgo : forall this1 current,
             detectOrCount tf this image (shouldUpdateRegionsOfInterest this)
             = inr this1 ->
             regionsOfInterest this1 = [current] ->
             hasAnchors current ->
             exists result,
               fst (estimateHand Math tf this image config)
               = Returned (Some result)).
  { intros this1 current Estage Erois [palm [Hpalm Hlen]].
    unfold estimateHand. rewrite Estage, Erois. cbn [nth_error].
    rewrite Hpalm. destruct (anchors_present palm Hlen) as [p0 [p2 [-> ->]]].
    match goal with
    | |- context [predict tf ?i] =>
        pose proof (Hmesh i) as Hrows; pose proof (Hflag i) as Hconf;
        destruct (predict tf i) as [flagValue rawCoords]
    end.
    cbn [fst snd] in Hrows, Hconf. rewrite Hconf.
    match goal with
    | |- context [getBoxForHandLandmarks ?c] =>
        destruct (getBoxForHandLandmarks_enough c) as [next [Enext _]]
    end.
    { rewrite transformRawCoords_length. exact Hrows. }
    rewrite Enext. eexists. reflexivity. }
  destruct (detectOrCount_cases tf this image)
    as [[Efresh [Ebounds _]]
       | [[detected [Efresh [Ebounds Estage]]]
         | [currentBox [Efresh [Erois Estage]]]]].
  - exfalso. exact (Hfound Efresh Ebounds).
  - apply (Hgo _ detected Estage); [reflexivity|].
    exact (Hdetector _ _ Ebounds).
  - apply (Hgo _ currentBox Estage); [exact Erois|].
    apply Hinv. rewrite Erois. left. reflexivity.
Qed.

(** X18: a frame on which the mesh detector, for the hand image of the
    frame, gives at least 18 keypoints with a confidence that is not below
    [config.minConfidence] returns a result; the confidence in it is the one
    of the mesh detector, and it has one landmark for each keypoint, with
    the keypoint's depth. *)
Theorem estimateHand_confident (Math : MathObject) {Image : Type}
    (tf : Collaborators Image) (this : HandPipeline) (image : Image)
    (config : Config) (handImage : Image) :
  frameHandImage Math tf this image = Some handImage ->
  (fst (predict tf handImage) <? minConfidence config)%js = false ->
  (18 <= length (snd (predict tf handImage)))%nat ->
  exists result,
    fst (estimateHand Math tf this image config) = Returned (Some result)
    /\ confidence result = fst (predict tf handImage)
    /\ length (landmarks result) = length (snd (predict tf handImage))
    /\ map at2 (landmarks result) = map at2 (snd (predict tf handImage)).
Proof.
  intros Himage Hflag Hrows.
  destruct (estimateHand_from_handImage Math tf this image config handImage
              Himage)
    as [this1 [current [box [angle [rot [Erois E]]]]]].
  rewrite E. destruct (predict tf handImage) as [flagValue rawCoords].
  cbn [fst snd] in Hflag, Hrows |- *. rewrite Hflag. cbv zeta.
  destruct (getBoxForHandLandmarks_enough
              (transformRawCoords Math this1 rawCoords box angle rot))
    as [next [Enext _]].
  { rewrite transformRawCoords_length. exact Hrows. }
  rewrite Enext. eexists. split; [reflexivity|].
  cbn [confidence landmarks]. split; [reflexivity|].
  split; [apply transformRawCoords_length|].
  unfold transformRawCoords. rewrite !map_map. apply map_ext.
  intros [[x y] z]. reflexivity.
Qed.

(** ** The order of the landmarks *)

Lemma min2_eqv (a a' b b' : number) :
  (a =~ a')%js -> (b =~ b')%js -> (JS.min2 a b =~ JS.min2 a' b')%js.
Proof.
  destruct a, a', b, b'; simpl; trivial; try contradiction.
  intros E1 E2. rewrite E1, E2. reflexivity.
Qed.

Lemma max2_eqv (a a' b b' : number) :
  (a =~ a')%js -> (b =~ b')%js -> (JS.max2 a b =~ JS.max2 a' b')%js.
Proof.
  destruct a, a', b, b'; simpl; trivial; try contradiction.
  intros E1 E2. rewrite E1, E2. reflexivity.
Qed.

Lemma min2_swap (a x y : number) :
  (JS.min2 (JS.min2 a y) x =~ JS.min2 (JS.min2 a x) y)%js.
Proof.
  destruct a, x, y; simpl; trivial; try reflexivity.
  all: first
         [ apply Q.min_comm
         | rewrite <- !Q.min_assoc; apply Q.min_compat;
           [reflexivity | apply Q.min_comm] ].
Qed.

Lemma max2_swap (a x y : number) :
  (JS.max2 (JS.max2 a y) x =~ JS.max2 (JS.max2 a x) y)%js.
Proof.
  destruct a, x, y; simpl; trivial; try reflexivity.
  all: first
         [ apply Q.max_comm
         | rewrite <- !Q.max_assoc; apply Q.max_compat;
           [reflexivity | apply Q.max_comm] ].
Qed.

Section FoldOrder.

Variable f : number -> number -> number.
Hypothesis f_eqv :
  forall a a' b b', (a =~ a')%js -> (b =~ b')%js -> (f a b =~ f a' b')%js.
Hypothesis f_swap : forall a x y, (f (f a y) x =~ f (f a x) y)%js.

Lemma fold_left_eqv (xs : list number) :
  forall a a', (a =~ a')%js -> (fold_left f xs a =~ fold_left f xs a')%js.
Proof.
  induction xs as [|x xs IH]; intros a a' E; simpl; [exact E|].
  apply IH. apply f_eqv; [exact E | apply eqv_refl].
Qed.

Lemma fold_left_order (xs ys : list number) :
  Permutation xs ys ->
  forall a a', (a =~ a')%js -> (fold_left f xs a =~ fold_left f ys a')%js.
Proof.
  induction 1 as [|x xs ys _ IH | x y xs | xs ys zs _ IH1 _ IH2];
    intros a a' E; simpl.
  - exact E.
  - apply IH. apply f_eqv; [exact E | apply eqv_refl].
  - apply fold_left_eqv.
    apply eqv_trans with (f (f a x) y); [apply f_swap|].
    apply f_eqv; [|apply eqv_refl]. apply f_eqv; [exact E | apply eqv_refl].
  - apply eqv_trans with (fold_left f ys a).
    + apply IH1. apply eqv_refl.
    + apply IH2. exact E.
Qed.

End FoldOrder.

(** The bounding box of a list and of a permutation of it. *)
Lemma boundingBox_order {P : Type} `{Indexed P}
    (landmarks landmarks' : list P) :
  Permutation landmarks landmarks' ->
  sameCorners (calculateLandmarksBoundingBox landmarks)
              (calculateLandmarksBoundingBox landmarks').
Proof.
  intro Hperm.
  assert (Hx : Permutation (map at0 landmarks) (map at0 landmarks'))
    by (apply Permutation_map; exact Hperm).
  assert (Hy : Permutation (map at1 landmarks) (map at1 landmarks'))
    by (apply Permutation_map; exact Hperm).
  unfold sameCorners, point2_eqv, calculateLandmarksBoundingBox,
    JS.min_of, JS.max_of.
  cbn [startPoint endPoint fst snd].
  repeat split.
  - apply (fold_left_order JS.min2 min2_eqv min2_swap _ _ Hx). exact I.
  - apply (fold_left_order JS.min2 min2_eqv min2_swap _ _ Hy). exact I.
  - apply (fold_left_order JS.max2 max2_eqv max2_swap _ _ Hx). exact I.
  - apply (fold_left_order JS.max2 max2_eqv max2_swap _ _ Hy). exact I.
Qed.

(** X19: the bounding box of the landmarks does not depend on their
    order: two lists with the same landmarks, each as many times, have
    bounding boxes with the same corners. *)
Theorem calculateLandmarksBoundingBox_order {P : Type} `{Indexed P}
    (landmarks landmarks' : list P) :
  Permutation landmarks landmarks' ->
  sameCorners (calculateLandmarksBoundingBox landmarks)
              (calculateLandmarksBoundingBox landmarks').
Proof.
  intro Hperm.
  assert (Hx : Permutation (map at0 landmarks) (map at0 landmarks'))
    by (apply Permutation_map; exact Hperm).
  assert (Hy : Permutation (map at1 landmarks) (map at1 landmarks'))
    by (apply Permutation_map; exact Hperm).
  unfold sameCorners, point2_eqv, calculateLandmarksBoundingBox,
    JS.min_of, JS.max_of.
  cbn [startPoint endPoint fst snd].
  repeat split.
  - apply (fold_left_order JS.min2 min2_eqv min2_swap _ _ Hx). exact I.
  - apply (fold_left_order JS.min2 min2_eqv min2_swap _ _ Hy). exact I.
  - apply (fold_left_order JS.max2 max2_eqv max2_swap _ _ Hx). exact I.
  - apply (fold_left_order JS.max2 max2_eqv max2_swap _ _ Hy). exact I.
Qed.

Lemma add_eqv (a a' b b' : number) :
  (a =~ a')%js -> (b =~ b')%js -> (a + b =~ a' + b')%js.
Proof.
  destruct a, a', b, b'; simpl; trivial; try contradiction.
  intros E1 E2. rewrite E1, E2. reflexivity.
Qed.

Lemma sub_eqv (a a' b b' : number) :
  (a =~ a')%js -> (b =~ b')%js -> (a - b =~ a' - b')%js.
Proof.
  destruct a, a', b, b'; simpl; trivial; try contradiction.
  intros E1 E2. rewrite E1, E2. reflexivity.
Qed.

Lemma mul_eqv (a a' b b' : number) :
  (a =~ a')%js -> (b =~ b')%js -> (a * b =~ a' * b')%js.
Proof.
  destruct a, a', b, b'; simpl; trivial; try contradiction;
    intros E1 E2; try rewrite E1; try rewrite E2;
    first [reflexivity | apply eqv_refl].
Qed.

Lemma div_eqv (a a' b b' : number) :
  (a =~ a')%js -> (b =~ b')%js -> (a / b =~ a' / b')%js.
Proof.
  destruct a, a', b, b'; simpl; trivial; try contradiction;
    intros E1 E2; try rewrite E1; try rewrite E2;
    try (first [reflexivity | apply eqv_refl]).
  destruct (Qeq_bool q2 0) eqn:E0.
  - apply eqv_refl.
  - simpl. apply Qeq_bool_neq in E0. rewrite E1, E2. reflexivity.
Qed.

Ltac same_numbers :=
  repeat first
    [ assumption
    | apply eqv_refl
    | apply add_eqv
    | apply sub_eqv
    | apply mul_eqv
    | apply div_eqv
    | apply max2_eqv ].

Lemma getBoxSize_sameCorners (a b : Box) :
  sameCorners a b ->
  point2_eqv (Bounding.getBoxSize a) (Bounding.getBoxSize b).
Proof.
  intros [[Hsx Hsy] [Hex Hey]]. unfold Bounding.getBoxSize.
  split; cbn [fst snd]; same_numbers.
Qed.

Lemma getBoxCenter_sameCorners (a b : Box) :
  sameCorners a b ->
  point2_eqv (Bounding.getBoxCenter a) (Bounding.getBoxCenter b).
Proof.
  intros [[Hsx Hsy] [Hex Hey]]. unfold Bounding.getBoxCenter.
  split; cbn [fst snd]; same_numbers.
Qed.

Lemma shiftBox_sameCorners (a b : Box) (shiftFactor : Point2D) :
  sameCorners a b ->
  sameCorners (Bounding.shiftBox a shiftFactor)
              (Bounding.shiftBox b shiftFactor).
Proof.
  intro Hab. destruct (getBoxSize_sameCorners a b Hab) as [Hw Hh].
  destruct Hab as [[Hsx Hsy] [Hex Hey]].
  unfold Bounding.shiftBox, sameCorners, point2_eqv.
  cbn [startPoint endPoint fst snd]. repeat split; same_numbers.
Qed.

Lemma squarifyBox_sameCorners (a b : Box) :
  sameCorners a b ->
  sameCorners (Bounding.squarifyBox a) (Bounding.squarifyBox b).
Proof.
  intro Hab. destruct (getBoxSize_sameCorners a b Hab) as [Hw Hh].
  destruct (getBoxCenter_sameCorners a b Hab) as [Hcx Hcy].
  unfold Bounding.squarifyBox, sameCorners, point2_eqv.
  cbn [startPoint endPoint fst snd]. repeat split; same_numbers.
Qed.

Lemma enlargeBox_sameCorners (a b : Box) (factor : number) :
  sameCorners a b ->
  sameCorners (Bounding.enlargeBox a factor) (Bounding.enlargeBox b factor).
Proof.
  intro Hab. destruct (getBoxSize_sameCorners a b Hab) as [Hw Hh].
  destruct (getBoxCenter_sameCorners a b Hab) as [Hcx Hcy].
  unfold Bounding.enlargeBox, sameCorners, point2_eqv.
  cbn [startPoint endPoint fst snd]. repeat split; same_numbers.
Qed.

(** X20: the crop box that [getBoxForPalmLandmarks] makes does not depend
    on the order of the palm landmarks it is given: for the same rotation
    matrix, two lists with the same palm landmarks give boxes with the same
    corners. *)
Theorem getBoxForPalmLandmarks_order (palm palm' : list Point2D)
    (rotationMatrix : RotationMatrix) :
  Permutation palm palm' ->
  sameCorners (getBoxForPalmLandmarks palm rotationMatrix)
              (getBoxForPalmLandmarks palm' rotationMatrix).
Proof.
  intro Hperm. unfold getBoxForPalmLandmarks.
  apply enlargeBox_sameCorners, squarifyBox_sameCorners, shiftBox_sameCorners.
  apply boundingBox_order. apply Permutation_map. exact Hperm.
Qed.

(** ** The further statements at sample values *)

Lemma sampleLandmarks_finite : Forall finitePoint sampleLandmarks.
Proof. unfold sampleLandmarks. simpl. repeat constructor. Qed.

Lemma sampleCollaborators_contract (flagValue : number) :
  collaboratorsContract (sampleCollaborators flagValue).
Proof.
  split.
  - intros image box E. injection E as <-. eexists. split; [reflexivity|].
    simpl. lia.
  - intro image. simpl. lia.
Qed.

Lemma calculateLandmarksBoundingBox_contains_witness :
  insideBox (nth 3 sampleLandmarks origin3)
            (calculateLandmarksBoundingBox sampleLandmarks).
Proof.
  apply calculateLandmarksBoundingBox_contains.
  - exact sampleLandmarks_finite.
  - apply nth_In. simpl. lia.
Defined.

Lemma calculateLandmarksBoundingBox_degenerate_witness :
  fst (startPoint
         (calculateLandmarksBoundingBox [(Fin 1, Fin 2); (NaN, Fin 3)])) = NaN
  /\ fst (endPoint
            (calculateLandmarksBoundingBox [(Fin 1, Fin 2); (NaN, Fin 3)])) = NaN.
Proof.
  destruct (@calculateLandmarksBoundingBox_degenerate Point2D _) as [_ Hnan].
  apply (Hnan [(Fin 1, Fin 2); (NaN, Fin 3)] (NaN, Fin 3)).
  - right. left. reflexivity.
  - reflexivity.
Defined.

Lemma iou_degenerate_box_witness :
  iou (finiteBox 5 5 5 9 None) (finiteBox 5 5 5 9 None) = NaN
  /\ previousIou (tracking (finiteBox 5 5 5 9 None) 0)
       (finiteBox 5 5 5 9 None) = NaN
  /\ regionsOfInterest
       (updateRegionsOfInterest (tracking (finiteBox 5 5 5 9 None) 0)
          (finiteBox 5 5 5 9 None) false)
     = [finiteBox 5 5 5 9 None].
Proof.
  apply (iou_degenerate_box (tracking (finiteBox 5 5 5 9 None) 0)
           5 5 5 9 None None []).
  - left. reflexivity.
  - reflexivity.
Defined.

Lemma estimateHand_detectors_consulted_witness :
  estimateHand mathAtZero
    (withBoundingBoxDetector (sampleCollaborators (Fin 0.9)) (fun _ => None))
    (tracking samplePalm 0) tt sampleConfig
  = estimateHand mathAtZero (sampleCollaborators (Fin 0.9))
      (tracking samplePalm 0) tt sampleConfig
  /\ estimateHand mathAtZero
       (withMeshDetector
          (withBoundingBoxDetector (sampleCollaborators (Fin 0.9))
             (fun _ => None))
          (fun _ => (Fin 1, [])))
       samplePipeline tt sampleConfig
     = estimateHand mathAtZero
         (withBoundingBoxDetector (sampleCollaborators (Fin 0.9))
            (fun _ => None))
         samplePipeline tt sampleConfig.
Proof.
  split.
  - apply (proj1 (estimateHand_detectors_consulted mathAtZero
                    (sampleCollaborators (Fin 0.9)) (tracking samplePalm 0) tt
                    sampleConfig)).
    reflexivity.
  - apply (proj2 (estimateHand_detectors_consulted mathAtZero
                    (withBoundingBoxDetector (sampleCollaborators (Fin 0.9))
                       (fun _ => None))
                    samplePipeline tt sampleConfig));
      reflexivity.
Defined.


(** A frame that reuses the tracked [samplePalm], which starts at
    x = 100: the mesh detector is confident of its hand image, though not
    of hand images cut from boxes further left. *)
Lemma estimateHand_confident_witness :
  exists result,
    fst (estimateHand mathAtZero (cropCollaborators (Fin 0.1, []))
           (tracking samplePalm 0) None sampleConfig)
    = Returned (Some result)
    /\ confidence result = Fin 0.9
    /\ length (landmarks result) = 21%nat.
Proof.
  destruct (estimateHand_confident mathAtZero (cropCollaborators (Fin 0.1, []))
              (tracking samplePalm 0) None sampleConfig (Some samplePalm))
    as [result [E [Hconfidence [Hlength _]]]].
  - reflexivity.
  - reflexivity.
  - simpl. lia.
  - exists result. split; [exact E|]. split; [exact Hconfidence|].
    exact Hlength.
Defined.

Lemma estimateHand_result_witness :
  exists result,
    fst (estimateHand mathAtZero (sampleCollaborators (Fin 0.9))
           samplePipeline tt sampleConfig)
    = Returned (Some result)
    /\ (18 <= length (landmarks result))%nat
    /\ length
         (regionsOfInterest
            (snd (estimateHand mathAtZero (sampleCollaborators (Fin 0.9))
                    samplePipeline tt sampleConfig)))
       = 1%nat.
Proof.
  assert (Hconfident : exists result,
             fst (estimateHand mathAtZero (sampleCollaborators (Fin 0.9))
                    samplePipeline tt sampleConfig)
             = Returned (Some result)).
  { apply estimateHand_gives_result.
    - intros box [].
    - apply sampleCollaborators_contract.
    - intros _. discriminate.
    - intro handImage. reflexivity. }
  destruct Hconfident as [result E]. exists result. split; [exact E|].
  destruct (estimateHand_result mathAtZero (sampleCollaborators (Fin 0.9))
              samplePipeline tt sampleConfig result E)
    as [_ [Hlen [_ [Hrois _]]]].
  split; assumption.
Defined.

Lemma estimateHand_never_throws_witness :
  exists answer,
    fst (estimateHand mathAtZero (sampleCollaborators (Fin 0.9))
           (snd (estimateHand mathAtZero (sampleCollaborators (Fin 0.9))
                   samplePipeline tt sampleConfig))
           tt sampleConfig)
    = Returned answer.
Proof.
  apply estimateHand_never_throws.
  - apply sampleCollaborators_contract.
  - apply reachable_estimateHand. apply reachable_constructor.
Defined.

(** The first frame of a new pipeline, with a mesh detector that is
    confident of one keypoint for the hand image of this frame (cut from a
    box that starts at x = 18.5) and of 21 for hand images cut further
    right. *)
Lemma estimateHand_too_few_keypoints_witness :
  fst (estimateHand mathAtZero (cropCollaborators (Fin 0.9, [origin3]))
         samplePipeline None sampleConfig)
  = Thrown
  /\ length
       (regionsOfInterest
          (snd (estimateHand mathAtZero
                  (cropCollaborators (Fin 0.9, [origin3]))
                  samplePipeline None sampleConfig)))
     = 1%nat.
Proof.
  assert (Himage : exists handImage,
             frameHandImage mathAtZero (cropCollaborators (Fin 0.9, [origin3]))
               samplePipeline None = Some handImage
             /\ predict (cropCollaborators (Fin 0.9, [origin3])) handImage
                = (Fin 0.9, [origin3])).
  { eexists. split; [reflexivity|]. vm_compute. reflexivity. }
  destruct Himage as [handImage [Himage Hanswer]].
  apply (estimateHand_too_few_keypoints mathAtZero
           (cropCollaborators (Fin 0.9, [origin3])) samplePipeline None
           sampleConfig handImage Himage).
  - rewrite Hanswer. reflexivity.
  - rewrite Hanswer. simpl. lia.
Defined.

Lemma calculateLandmarksBoundingBox_order_witness :
  sameCorners (calculateLandmarksBoundingBox sampleLandmarks)
              (calculateLandmarksBoundingBox (rev sampleLandmarks)).
Proof.
  apply calculateLandmarksBoundingBox_order. apply Permutation_rev.
Defined.

Lemma getBoxForPalmLandmarks_order_witness :
  sameCorners
    (getBoxForPalmLandmarks
       [(Fin 140, Fin 200); (Fin 110, Fin 150); (Fin 140, Fin 120)]
       ((Fin 1, Fin 0, Fin 0), (Fin 0, Fin 1, Fin 0)))
    (getBoxForPalmLandmarks
       (rev [(Fin 140, Fin 200); (Fin 110, Fin 150); (Fin 140, Fin 120)])
       ((Fin 1, Fin 0, Fin 0), (Fin 0, Fin 1, Fin 0))).
Proof.
  apply getBoxForPalmLandmarks_order. apply Permutation_rev.
Defined.
